(** * LawBot chat relay: the provider dispatch of [chatbot/views.py]

    A shallow embedding of the fallback logic that forwards the stored
    conversation to the external completion providers:
    [get_ai_response_external_only], its three stage functions
    [try_openai_api], [try_openrouter_api], [try_alternative_openai_api],
    and the REST entry point [chat_api] that calls them.

    Python values are modelled as follows.
    - A [str] is a Coq [string]; every character stands for one code point
      below 256, so [len] is [String.length].
    - A [dict] returned by the stage functions is the inductive [Outcome].
    - Exceptions are values of type [Py.exc]; code that can raise lives in
      the state-and-exception monad [M], and [try]/[except] is [try_except].
    - The outside world (the configured key, the HTTP peer, the availability
      of the database) is the record [Env]; everything the code mutates or
      emits (the message table, the outbound requests, the signals sent) is
      the record [State]. *)

From Stdlib Require Import String Ascii List ZArith QArith Bool Lia DecimalString.
Import ListNotations.

Close Scope Q_scope.
Open Scope string_scope.
Open Scope Z_scope.

(* ===================================================================== *)
(** ** Python values *)
(* ===================================================================== *)

Module Py.

(** The exception classes the [except] clauses of the code tell apart, and
    the built-in ones a subscript or the [pre_save] handler can raise.
    [RequestException] stands for every subclass of
    [requests.exceptions.RequestException] other than [Timeout];
    [OtherException] for any further subclass of [Exception]. *)
Inductive exc_class : Set :=
| Timeout
| RequestException
| KeyError
| IndexError
| TypeError
| ValueError
| AttributeError
| OtherException.

(** An exception instance: its class and [str(e)]. *)
Record exc : Set := mk_exc { exc_type : exc_class; exc_str : string }.

(** What evaluating an expression gives: an exception raised, or a value. *)
Definition result (A : Type) : Type := (exc + A)%type.

Definition rbind {A B : Type} (r : result A) (k : A -> result B) : result B :=
  match r with
  | inl e => inl e
  | inr a => k a
  end.

(** [isinstance(e, requests.exceptions.Timeout)] *)
Definition is_Timeout (e : exc) : bool :=
  match exc_type e with Timeout => true | _ => false end.

(** [isinstance(e, requests.exceptions.RequestException)]; [Timeout] is a
    subclass. *)
Definition is_RequestException (e : exc) : bool :=
  match exc_type e with Timeout | RequestException => true | _ => false end.

(** What [json.loads] yields. An object is the list of its entries; lookup
    takes the first entry with the key. *)
#[warnings="-register-all"]
Inductive json : Type :=
| JNull
| JBool (b : bool)
| JInt (n : Z)
| JFloat (q : Q)
| JStr (s : string)
| JArr (items : list json)
| JObj (entries : list (string * json)).

(** Truth value of a decoded value ([not v] is its negation). *)
Definition truthy (v : json) : bool :=
  match v with
  | JNull => false
  | JBool b => b
  | JInt n => negb (n =? 0)
  | JFloat q => negb (Qnum q =? 0)
  | JStr s => negb (s =? "")%string
  | JArr items => match items with [] => false | _ => true end
  | JObj entries => match entries with [] => false | _ => true end
  end.

Fixpoint assoc {A : Type} (k : string) (l : list (string * A)) : option A :=
  match l with
  | [] => None
  | (k', v) :: rest => if (k =? k')%string then Some v else assoc k rest
  end.

(** [str(KeyError(k))] for a key without quotes or escapes. *)
Definition repr_key (k : string) : string := "'" ++ k ++ "'".

(** [str(n)] for an [int]. *)
Definition str_int (n : Z) : string := NilZero.string_of_int (Z.to_int n).

(** [str(k)] inside an f-string, for a value that is [None] or a [str]. *)
Definition str_opt (k : option string) : string :=
  match k with
  | Some s => s
  | None => "None"
  end.

(** Truth value of a value that is [None] or a [str]. *)
Definition truthy_opt (k : option string) : bool :=
  match k with
  | Some s => negb (s =? "")%string
  | None => false
  end.

Section Subscript.

(** The text of the [TypeError] the interpreter raises when the value
    cannot be subscripted that way; it differs between interpreter
    versions and is left open. *)
Variable typeerror_text : json -> string.

(** [v[k]] for a string key [k]. *)
Definition getitem_key (v : json) (k : string) : result json :=
  match v with
  | JObj entries =>
      match assoc k entries with
      | Some x => inr x
      | None => inl (mk_exc KeyError (repr_key k))
      end
  | _ => inl (mk_exc TypeError (typeerror_text v))
  end.

(** [v[0]]. A decoded object has only string keys, so the key [0] is
    never found in it. *)
Definition getitem_0 (v : json) : result json :=
  match v with
  | JArr (x :: _) => inr x
  | JArr [] => inl (mk_exc IndexError "list index out of range")
  | JStr (String c _) => inr (JStr (String c EmptyString))
  | JStr EmptyString => inl (mk_exc IndexError "string index out of range")
  | JObj _ => inl (mk_exc KeyError "0")
  | _ => inl (mk_exc TypeError (typeerror_text v))
  end.

End Subscript.

(** [type(v).__name__] *)
Definition type_name (v : json) : string :=
  match v with
  | JNull => "NoneType"
  | JBool _ => "bool"
  | JInt _ => "int"
  | JFloat _ => "float"
  | JStr _ => "str"
  | JArr _ => "list"
  | JObj _ => "dict"
  end.

(** [c.isspace()] for a character below 256. *)
Definition isspace (c : ascii) : bool :=
  let n := nat_of_ascii c in
  (((9 <=? n) && (n <=? 13)) || ((28 <=? n) && (n <=? 32))
   || (n =? 133) || (n =? 160))%nat.

Fixpoint all_space (s : string) : bool :=
  match s with
  | EmptyString => true
  | String c rest => isspace c && all_space rest
  end.

End Py.

(* ===================================================================== *)
(** ** HTTP requests and responses (the [requests] library) *)
(* ===================================================================== *)

Module Http.

(** One entry of the [messages] array: [{"role": ..., "content": ...}]. *)
Record ChatMessage : Set := { role : string; content : string }.

(** The JSON body of a chat-completion request. *)
Record Payload : Set := {
  model : string;
  messages : list ChatMessage;
  max_tokens : Z;
  temperature : Q
}.

(** The arguments of one [requests.post] call. *)
Record Request : Set := {
  url : string;
  headers : list (string * string);
  json : Payload;
  timeout : Z
}.

(** What the code reads of a response: [status_code], [text], and what
    calling [.json()] does (the decoded body, or the exception raised). *)
Record Response : Type := {
  status_code : Z;
  text : string;
  json_body : Py.result Py.json
}.

End Http.

(* ===================================================================== *)
(** ** The message table and the signals *)
(* ===================================================================== *)

Module Models.

(** A row of the [Message] table, with the columns the code reads. *)
Record Message : Set := { id : Z; role : string; content : string }.

End Models.

Module Signals.

(** The functions that pass themselves as [sender]. *)
Inductive sender : Set :=
| Fn_get_ai_response_external_only
| Fn_try_openai_api
| Fn_try_openrouter_api
| Fn_try_alternative_openai_api.

(** One [error_occurred.send(sender=..., error_type=..., error_message=...)]. *)
Record Notification : Set := {
  sent_by : sender;
  error_type : string;
  error_message : string
}.

End Signals.

(* ===================================================================== *)
(** ** The world the views run in *)
(* ===================================================================== *)

(** The dict a stage function or the dispatcher returns:
    [{'success': True, 'response': r}], or
    [{'success': False, 'error': msg}] with or without an ['error_type']. *)
Inductive Outcome : Type :=
| Success (response : Py.json)
| Failure (error : string) (error_type : option string).

(** [response.get('success')] *)
Definition get_success (o : Outcome) : bool :=
  match o with
  | Success _ => true
  | Failure _ _ => false
  end.

(** What the code does not decide.
    - [OPENAI_API_KEY]: the module constant read from the settings
      ([None] or a [str]).
    - [requests_post]: the HTTP peer. Given the calls already made and the
      call being made, [requests.post] raises or returns a response.
    - [db_fault]: when set, the exception any query on the [Message] table
      raises.
    - [typeerror_text]: see [Py.getitem_key].
    - [validated_message]: the field validation of the REST framework for
      [ChatRequestSerializer]; [None] when [is_valid()] is false, otherwise
      [validated_data['message']]. *)
Record Env : Type := {
  OPENAI_API_KEY : option string;
  requests_post : list Http.Request -> Http.Request -> Py.result Http.Response;
  db_fault : option Py.exc;
  typeerror_text : Py.json -> string;
  validated_message : Py.json -> option string
}.

(** What the code changes or emits, oldest entry first.
    [trace] is a ghost field: it records each return of a stage function
    with the dict returned, and nothing in the code reads it. *)
Record State : Type := {
  table : list Models.Message;
  next_id : Z;
  outbound : list Http.Request;
  sent : list Signals.Notification;
  trace : list (Signals.sender * Outcome)
}.

Definition add_row (m : Models.Message) (st : State) : State :=
  {| table := table st ++ [m]; next_id := next_id st + 1;
     outbound := outbound st; sent := sent st; trace := trace st |}.

Definition add_outbound (r : Http.Request) (st : State) : State :=
  {| table := table st; next_id := next_id st;
     outbound := outbound st ++ [r]; sent := sent st; trace := trace st |}.

Definition add_sent (n : Signals.Notification) (st : State) : State :=
  {| table := table st; next_id := next_id st;
     outbound := outbound st; sent := sent st ++ [n]; trace := trace st |}.

Definition add_trace (t : Signals.sender * Outcome) (st : State) : State :=
  {| table := table st; next_id := next_id st;
     outbound := outbound st; sent := sent st; trace := trace st ++ [t] |}.

(** Computations that read and change the state and may raise. *)
Definition M (A : Type) : Type := State -> Py.result A * State.

Definition ret {A : Type} (a : A) : M A := fun st => (inr a, st).

Definition lift {A : Type} (r : Py.result A) : M A := fun st => (r, st).

Definition bind {A B : Type} (m : M A) (k : A -> M B) : M B :=
  fun st =>
    match m st with
    | (inl e, st') => (inl e, st')
    | (inr a, st') => k a st'
    end.

(** [try: body / except Exception as e: handler(e)] *)
Definition try_except {A : Type} (body : M A) (handler : Py.exc -> M A) : M A :=
  fun st =>
    match body st with
    | (inl e, st') => handler e st'
    | (inr a, st') => (inr a, st')
    end.

Declare Scope py_scope.
Delimit Scope py_scope with py.
Notation "x <- m ;; k" := (bind m (fun x => k))
  (at level 100, m at next level, right associativity) : py_scope.
Notation "m ;; k" := (bind m (fun _ => k))
  (at level 100, right associativity) : py_scope.
Open Scope py_scope.

(** The value a computation returns and the state it leaves. *)
Definition value_of {A : Type} (r : Py.result A * State) : Py.result A := fst r.
Definition state_of {A : Type} (r : Py.result A * State) : State := snd r.

(** What was appended to a log between two states. *)
Definition since {A : Type} (before after : list A) : list A :=
  skipn (length before) after.

(* ===================================================================== *)
(** ** [chatbot/signals.py] and the message store *)
(* ===================================================================== *)

(** [error_occurred.send(...)]: the receiver [handle_error_occurred] logs
    the error and bumps a cache counter; what is kept here is the (sender,
    type, message) triple that reached the channel. *)
Definition error_occurred_send (fn : Signals.sender) (error_type error_message : string)
  : M unit :=
  fun st =>
    (inr tt,
     add_sent {| Signals.sent_by := fn;
                 Signals.error_type := error_type;
                 Signals.error_message := error_message |} st).

(** [message_pre_save]: the handler run before a row is saved. It raises
    [ValueError] on empty or blank content and cuts content longer than
    5000 characters to 4997 characters followed by three dots. Content
    that is not a [str] has no [strip] and raises [AttributeError]. *)
Definition message_pre_save (content : Py.json) : Py.result string :=
  if negb (Py.truthy content) then
    inl (Py.mk_exc Py.ValueError "Message content cannot be empty")
  else
    match content with
    | Py.JStr s =>
        if Py.all_space s then
          inl (Py.mk_exc Py.ValueError "Message content cannot be empty")
        else if (5000 <? String.length s)%nat then
          inr (substring 0 4997 s ++ "...")
        else inr s
    | v =>
        inl (Py.mk_exc Py.AttributeError
               ("'" ++ Py.type_name v ++ "' object has no attribute 'strip'"))
    end.

Section Store.

Variable env : Env.

(** Modelled from the spec: [models.py], which declares the [Message]
    model and its default ordering, is not among the sources. The spec
    gives the store as a function that lists all turns in chronological
    order; [table] keeps the rows oldest first and the query returns
    them so, unless the database is unavailable. *)
Definition Message_objects_all : M (list Models.Message) :=
  fun st =>
    match db_fault env with
    | Some e => (inl e, st)
    | None => (inr (table st), st)
    end.

(** Modelled from the spec: [models.py] is not among the sources. The
    spec gives the store as a function that appends a turn and returns
    its identifier. [Message.objects.create] runs [message_pre_save],
    then inserts the row under the next identifier. *)
Definition Message_objects_create (role : string) (content : Py.json)
  : M Models.Message :=
  fun st =>
    match message_pre_save content with
    | inl e => (inl e, st)
    | inr c =>
        match db_fault env with
        | Some e => (inl e, st)
        | None =>
            let m := {| Models.id := next_id st;
                        Models.role := role;
                        Models.content := c |} in
            (inr m, add_row m st)
        end
    end.

End Store.

(* ===================================================================== *)
(** ** [chatbot/views.py] *)
(* ===================================================================== *)

(** The [system_prompt] dict, the same in the three stage functions. *)
Definition system_prompt : Http.ChatMessage :=
  {| Http.role := "system";
     Http.content :=
       "You are a legal assistant. Provide general legal information, "
       ++ "but always say: 'This is not legal advice.'" |}.

(** [{"role": m.role, "content": m.content}] *)
Definition as_chat (m : Models.Message) : Http.ChatMessage :=
  {| Http.role := Models.role m; Http.content := Models.content m |}.

Definition openai_url : string := "https://api.openai.com/v1/chat/completions".
Definition openrouter_url : string := "https://openrouter.ai/api/v1/chat/completions".

Definition models_to_try : list string :=
  ["gpt-3.5-turbo"; "gpt-4"; "gpt-4-turbo-preview"].

Definition all_failed_msg : string :=
  "All external AI services are currently unavailable. Please check your API key configuration or try again later.".

Section Views.

Variable env : Env.

(** [requests.post(url, headers=..., json=..., timeout=...)]: the call is
    recorded, then the peer answers or the call raises. *)
Definition post (r : Http.Request) : M Http.Response :=
  fun st => (requests_post env (outbound st) r, add_outbound r st).

(** [resp.json()["choices"][0]["message"]["content"]] *)
Definition first_choice_content (resp : Http.Response) : Py.result Py.json :=
  Py.rbind (Http.json_body resp) (fun body =>
  Py.rbind (Py.getitem_key (typeerror_text env) body "choices") (fun choices =>
  Py.rbind (Py.getitem_0 (typeerror_text env) choices) (fun choice =>
  Py.rbind (Py.getitem_key (typeerror_text env) choice "message") (fun message =>
  Py.getitem_key (typeerror_text env) message "content")))).

(** Ghost: record the dict a stage function returns. *)
Definition traced (fn : Signals.sender) (body : M Outcome) : M Outcome :=
  fun st =>
    match body st with
    | (inl e, st') => (inl e, st')
    | (inr o, st') => (inr o, add_trace (fn, o) st')
    end.

(** [OPENAI_API_KEY.startswith(p)], evaluated only behind the truth test. *)
Definition key_startswith (p : string) : bool :=
  match OPENAI_API_KEY env with
  | Some s => prefix p s
  | None => false
  end.

Definition try_openai_api (user_input : string) : M Outcome :=
  traced Signals.Fn_try_openai_api
    (try_except
       (rows <- Message_objects_all env ;;
        let messages_for_gpt := system_prompt :: map as_chat rows in
        let headers :=
          [("Authorization", "Bearer " ++ Py.str_opt (OPENAI_API_KEY env));
           ("Content-Type", "application/json")] in
        let payload :=
          {| Http.model := "gpt-3.5-turbo";
             Http.messages := messages_for_gpt;
             Http.max_tokens := 500;
             Http.temperature := (2 # 10)%Q |} in
        resp <- post {| Http.url := openai_url;
                        Http.headers := headers;
                        Http.json := payload;
                        Http.timeout := 30 |} ;;
        if Http.status_code resp =? 200 then
          reply_text <- lift (first_choice_content resp) ;;
          ret (Success reply_text)
        else if Http.status_code resp =? 401 then
          let error_msg :=
            "Invalid OpenAI API key. Please check your API key configuration." in
          error_occurred_send Signals.Fn_try_openai_api "auth_error" error_msg ;;
          ret (Failure error_msg (Some "auth_error"))
        else if Http.status_code resp =? 429 then
          let error_msg := "Rate limit exceeded. Please try again later." in
          error_occurred_send Signals.Fn_try_openai_api "rate_limit" error_msg ;;
          ret (Failure error_msg (Some "rate_limit"))
        else
          let error_msg :=
            "OpenAI API Error (Status " ++ Py.str_int (Http.status_code resp)
            ++ "): " ++ Http.text resp in
          error_occurred_send Signals.Fn_try_openai_api "api_error" error_msg ;;
          ret (Failure error_msg (Some "api_error")))
       (fun e =>
          if Py.is_Timeout e then
            ret (Failure "OpenAI API request timed out. Please try again."
                         (Some "timeout"))
          else if Py.is_RequestException e then
            ret (Failure ("OpenAI API network error: " ++ Py.exc_str e)
                         (Some "network_error"))
          else
            ret (Failure ("OpenAI API error: " ++ Py.exc_str e)
                         (Some "api_error")))).

Definition try_openrouter_api (user_input : string) : M Outcome :=
  traced Signals.Fn_try_openrouter_api
    (try_except
       (rows <- Message_objects_all env ;;
        let messages_for_gpt := system_prompt :: map as_chat rows in
        let headers :=
          [("Authorization", "Bearer " ++ Py.str_opt (OPENAI_API_KEY env));
           ("Content-Type", "application/json");
           ("HTTP-Referer", "http://localhost:9000");
           ("X-Title", "LawBot")] in
        let payload :=
          {| Http.model := "gpt-4o-mini";
             Http.messages := messages_for_gpt;
             Http.max_tokens := 500;
             Http.temperature := (2 # 10)%Q |} in
        resp <- post {| Http.url := openrouter_url;
                        Http.headers := headers;
                        Http.json := payload;
                        Http.timeout := 30 |} ;;
        if Http.status_code resp =? 200 then
          reply_text <- lift (first_choice_content resp) ;;
          ret (Success reply_text)
        else if Http.status_code resp =? 401 then
          let error_msg :=
            "Invalid OpenRouter API key. Please check your API key configuration." in
          error_occurred_send Signals.Fn_try_openrouter_api "auth_error" error_msg ;;
          ret (Failure error_msg (Some "auth_error"))
        else if Http.status_code resp =? 429 then
          let error_msg := "OpenRouter rate limit exceeded. Please try again later." in
          error_occurred_send Signals.Fn_try_openrouter_api "rate_limit" error_msg ;;
          ret (Failure error_msg (Some "rate_limit"))
        else
          let error_msg :=
            "OpenRouter API Error (Status " ++ Py.str_int (Http.status_code resp)
            ++ "): " ++ Http.text resp in
          error_occurred_send Signals.Fn_try_openrouter_api "api_error" error_msg ;;
          ret (Failure error_msg (Some "api_error")))
       (fun e =>
          if Py.is_Timeout e then
            ret (Failure "OpenRouter API request timed out. Please try again."
                         (Some "timeout"))
          else if Py.is_RequestException e then
            ret (Failure ("OpenRouter API network error: " ++ Py.exc_str e)
                         (Some "network_error"))
          else
            ret (Failure ("OpenRouter API error: " ++ Py.exc_str e)
                         (Some "api_error")))).

(** One turn of [for model in models_to_try]: the inner [try] with its
    [except Exception: continue]. [Some o] stands for [return o], [None]
    for going on to the next model (by [continue], or by falling off the
    end of the [if] chain on any other status). *)
Definition try_model (headers : list (string * string))
    (messages_for_gpt : list Http.ChatMessage) (model : string)
  : M (option Outcome) :=
  try_except
    (let payload :=
       {| Http.model := model;
          Http.messages := messages_for_gpt;
          Http.max_tokens := 500;
          Http.temperature := (2 # 10)%Q |} in
     resp <- post {| Http.url := openai_url;
                     Http.headers := headers;
                     Http.json := payload;
                     Http.timeout := 30 |} ;;
     if Http.status_code resp =? 200 then
       reply_text <- lift (first_choice_content resp) ;;
       ret (Some (Success reply_text))
     else if Http.status_code resp =? 401 then ret None
     else if Http.status_code resp =? 429 then ret None
     else ret None)
    (fun _ => ret None).

(** The loop, and the [return] that follows it. *)
Fixpoint for_model_in (headers : list (string * string))
    (messages_for_gpt : list Http.ChatMessage) (models : list string)
  : M Outcome :=
  match models with
  | [] => ret (Failure "All OpenAI models failed" None)
  | model :: rest =>
      found <- try_model headers messages_for_gpt model ;;
      match found with
      | Some o => ret o
      | None => for_model_in headers messages_for_gpt rest
      end
  end.

Definition try_alternative_openai_api (user_input : string) : M Outcome :=
  traced Signals.Fn_try_alternative_openai_api
    (try_except
       (rows <- Message_objects_all env ;;
        let messages_for_gpt := system_prompt :: map as_chat rows in
        let headers :=
          [("Authorization", "Bearer " ++ Py.str_opt (OPENAI_API_KEY env));
           ("Content-Type", "application/json")] in
        for_model_in headers messages_for_gpt models_to_try)
       (fun e =>
          ret (Failure ("Alternative OpenAI Error: " ++ Py.exc_str e) None))).

(** [if guard: response = attempt(); if response.get('success'): return
    response], followed by the rest of the function. *)
Definition return_if_success (guard : bool) (attempt rest : M Outcome)
  : M Outcome :=
  if guard then
    response <- attempt ;;
    if get_success response then ret response else rest
  else rest.

Definition get_ai_response_external_only (user_input : string) : M Outcome :=
  let key := OPENAI_API_KEY env in
  (* Try OpenAI API first *)
  return_if_success
    (Py.truthy_opt key && negb (key_startswith "sk-or-"))
    (try_openai_api user_input)
  (* Try OpenRouter API second *)
  (return_if_success
    (Py.truthy_opt key && key_startswith "sk-or-")
    (try_openrouter_api user_input)
  (* Try alternative OpenAI models *)
  (return_if_success
    (Py.truthy_opt key)
    (try_alternative_openai_api user_input)
  (* All external APIs failed *)
  (error_occurred_send Signals.Fn_get_ai_response_external_only
     "all_apis_failed" all_failed_msg ;;
   ret (Failure all_failed_msg (Some "all_apis_failed"))))).

(** Kept for backward compatibility. *)
Definition get_ai_response (user_input : string) : M Outcome :=
  get_ai_response_external_only user_input.

(** A REST framework [Response(serializer.data, status=...)]. *)
Record ApiResponse : Type := {
  data : list (string * Py.json);
  status : Z
}.

(** [chat_api], for a POST request carrying [request_data]. An exception
    that leaves the function is not handled by it. *)
Definition chat_api (request_data : Py.json) : M ApiResponse :=
  match validated_message env request_data with
  | None =>
      ret {| data := [("error", Py.JStr "Invalid request data");
                      ("error_type", Py.JStr "validation_error")];
             status := 400 |}
  | Some user_input =>
      if negb (Py.truthy_opt (OPENAI_API_KEY env)) then
        ret {| data :=
                 [("error",
                   Py.JStr "OpenAI API key is not configured. Please set the OPENAI_API_KEY environment variable.");
                  ("error_type", Py.JStr "configuration_error")];
               status := 500 |}
      else
        user_message <- Message_objects_create env "user" (Py.JStr user_input) ;;
        ai_response <- get_ai_response_external_only user_input ;;
        match ai_response with
        | Success response =>
            assistant_message <-
              Message_objects_create env "assistant" response ;;
            ret {| data := [("response", response);
                            ("message_id",
                             Py.JInt (Models.id assistant_message))];
                   status := 200 |}
        | Failure error error_type =>
            error_message <-
              Message_objects_create env "assistant" (Py.JStr error) ;;
            ret {| data :=
                     [("error", Py.JStr error);
                      ("error_type",
                       Py.JStr match error_type with
                               | Some t => t
                               | None => "api_error"
                               end)];
                   status := 500 |}
        end
  end.

End Views.

(* ===================================================================== *)
(** ** The common shape of the two single-model stages *)
(* ===================================================================== *)

(** [try_openai_api] and [try_openrouter_api] are the same code up to the
    constants below; [single_stage] is that code with the constants taken
    out, and the two functions are instances of it by computation
    ([try_openai_api_shape], [try_openrouter_api_shape]). *)
Record StageConsts : Set := {
  sc_fn : Signals.sender;
  sc_name : string;
  sc_url : string;
  sc_more_headers : list (string * string);
  sc_model : string;
  sc_rate_msg : string
}.

Definition openai_consts : StageConsts :=
  {| sc_fn := Signals.Fn_try_openai_api;
     sc_name := "OpenAI";
     sc_url := openai_url;
     sc_more_headers := [];
     sc_model := "gpt-3.5-turbo";
     sc_rate_msg := "Rate limit exceeded. Please try again later." |}.

Definition openrouter_consts : StageConsts :=
  {| sc_fn := Signals.Fn_try_openrouter_api;
     sc_name := "OpenRouter";
     sc_url := openrouter_url;
     sc_more_headers :=
       [("HTTP-Referer", "http://localhost:9000"); ("X-Title", "LawBot")];
     sc_model := "gpt-4o-mini";
     sc_rate_msg := "OpenRouter rate limit exceeded. Please try again later." |}.

Section Shape.

Variable c : StageConsts.
Variable env : Env.

(** The request a single-model stage sends when the table holds [rows]. *)
Definition stage_request (rows : list Models.Message) : Http.Request :=
  {| Http.url := sc_url c;
     Http.headers :=
       [("Authorization", "Bearer " ++ Py.str_opt (OPENAI_API_KEY env));
        ("Content-Type", "application/json")] ++ sc_more_headers c;
     Http.json :=
       {| Http.model := sc_model c;
          Http.messages := system_prompt :: map as_chat rows;
          Http.max_tokens := 500;
          Http.temperature := (2 # 10)%Q |};
     Http.timeout := 30 |}.

(** The dict the three [except] clauses build, and the clauses. *)
Definition on_exception (e : Py.exc) : Outcome :=
  if Py.is_Timeout e then
    Failure (sc_name c ++ " API request timed out. Please try again.")
            (Some "timeout")
  else if Py.is_RequestException e then
    Failure (sc_name c ++ " API network error: " ++ Py.exc_str e)
            (Some "network_error")
  else
    Failure (sc_name c ++ " API error: " ++ Py.exc_str e) (Some "api_error").

Definition handle (e : Py.exc) : M Outcome :=
  if Py.is_Timeout e then
    ret (Failure (sc_name c ++ " API request timed out. Please try again.")
                 (Some "timeout"))
  else if Py.is_RequestException e then
    ret (Failure (sc_name c ++ " API network error: " ++ Py.exc_str e)
                 (Some "network_error"))
  else
    ret (Failure (sc_name c ++ " API error: " ++ Py.exc_str e)
                 (Some "api_error")).

Definition auth_msg : string :=
  "Invalid " ++ sc_name c ++ " API key. Please check your API key configuration.".

Definition status_msg (resp : Http.Response) : string :=
  sc_name c ++ " API Error (Status " ++ Py.str_int (Http.status_code resp)
  ++ "): " ++ Http.text resp.

Definition notification (error_type error_message : string)
  : Signals.Notification :=
  {| Signals.sent_by := sc_fn c;
     Signals.error_type := error_type;
     Signals.error_message := error_message |}.

Definition single_stage : M Outcome :=
  traced (sc_fn c)
    (try_except
       (rows <- Message_objects_all env ;;
        resp <- post env (stage_request rows) ;;
        if Http.status_code resp =? 200 then
          reply_text <- lift (first_choice_content env resp) ;;
          ret (Success reply_text)
        else if Http.status_code resp =? 401 then
          error_occurred_send (sc_fn c) "auth_error" auth_msg ;;
          ret (Failure auth_msg (Some "auth_error"))
        else if Http.status_code resp =? 429 then
          error_occurred_send (sc_fn c) "rate_limit" (sc_rate_msg c) ;;
          ret (Failure (sc_rate_msg c) (Some "rate_limit"))
        else
          error_occurred_send (sc_fn c) "api_error" (status_msg resp) ;;
          ret (Failure (status_msg resp) (Some "api_error")))
       handle).

End Shape.

(** The state after a run: the table is as before, the three logs have
    grown by what the run sent, emitted and returned. *)
Definition extend (st : State) (reqs : list Http.Request)
    (sigs : list Signals.Notification) (rets : list (Signals.sender * Outcome))
  : State :=
  {| table := table st; next_id := next_id st;
     outbound := outbound st ++ reqs;
     sent := sent st ++ sigs;
     trace := trace st ++ rets |}.

(** What one single-model attempt does, case by case: the dict returned,
    the requests sent and the signals emitted. *)
Inductive attempt (c : StageConsts) (env : Env) (st : State)
  : Outcome -> list Http.Request -> list Signals.Notification -> Prop :=
| attempt_db_fault e :
    db_fault env = Some e ->
    attempt c env st (on_exception c e) [] []
| attempt_raised e :
    db_fault env = None ->
    requests_post env (outbound st) (stage_request c env (table st)) = inl e ->
    attempt c env st (on_exception c e) [stage_request c env (table st)] []
| attempt_reply resp reply_text :
    db_fault env = None ->
    requests_post env (outbound st) (stage_request c env (table st)) = inr resp ->
    Http.status_code resp = 200 ->
    first_choice_content env resp = inr reply_text ->
    attempt c env st (Success reply_text) [stage_request c env (table st)] []
| attempt_unreadable resp e :
    db_fault env = None ->
    requests_post env (outbound st) (stage_request c env (table st)) = inr resp ->
    Http.status_code resp = 200 ->
    first_choice_content env resp = inl e ->
    attempt c env st (on_exception c e) [stage_request c env (table st)] []
| attempt_401 resp :
    db_fault env = None ->
    requests_post env (outbound st) (stage_request c env (table st)) = inr resp ->
    Http.status_code resp = 401 ->
    attempt c env st (Failure (auth_msg c) (Some "auth_error"))
      [stage_request c env (table st)]
      [notification c "auth_error" (auth_msg c)]
| attempt_429 resp :
    db_fault env = None ->
    requests_post env (outbound st) (stage_request c env (table st)) = inr resp ->
    Http.status_code resp = 429 ->
    attempt c env st (Failure (sc_rate_msg c) (Some "rate_limit"))
      [stage_request c env (table st)]
      [notification c "rate_limit" (sc_rate_msg c)]
| attempt_status resp :
    db_fault env = None ->
    requests_post env (outbound st) (stage_request c env (table st)) = inr resp ->
    Http.status_code resp <> 200 ->
    Http.status_code resp <> 401 ->
    Http.status_code resp <> 429 ->
    attempt c env st (Failure (status_msg c resp) (Some "api_error"))
      [stage_request c env (table st)]
      [notification c "api_error" (status_msg c resp)].

(** The reply a call yields: the first choice's content of a response with
    status 200 whose body can be read that far; nothing otherwise. *)
Definition completion (env : Env) (log : list Http.Request) (r : Http.Request)
  : option Py.json :=
  match requests_post env log r with
  | inl _ => None
  | inr resp =>
      if Http.status_code resp =? 200 then
        match first_choice_content env resp with
        | inl _ => None
        | inr reply_text => Some reply_text
        end
      else None
  end.

(** The request the alternative stage sends for [model]. *)
Definition model_request (env : Env) (rows : list Models.Message) (model : string)
  : Http.Request :=
  stage_request
    {| sc_fn := Signals.Fn_try_alternative_openai_api;
       sc_name := "OpenAI";
       sc_url := openai_url;
       sc_more_headers := [];
       sc_model := model;
       sc_rate_msg := "" |} env rows.

(** What the loop over the models does from a given request log on. *)
Inductive loop (env : Env) (rows : list Models.Message)
  : list string -> list Http.Request -> Outcome -> list Http.Request -> Prop :=
| loop_exhausted log :
    loop env rows [] log (Failure "All OpenAI models failed" None) []
| loop_hit model rest log reply_text :
    completion env log (model_request env rows model) = Some reply_text ->
    loop env rows (model :: rest) log (Success reply_text)
      [model_request env rows model]
| loop_next model rest log o reqs :
    completion env log (model_request env rows model) = None ->
    loop env rows rest (log ++ [model_request env rows model]) o reqs ->
    loop env rows (model :: rest) log o (model_request env rows model :: reqs).

(** The signal the dispatcher sends before it gives up. *)
Definition all_failed_notification : Signals.Notification :=
  {| Signals.sent_by := Signals.Fn_get_ai_response_external_only;
     Signals.error_type := "all_apis_failed";
     Signals.error_message := all_failed_msg |}.

Definition all_failed : Outcome := Failure all_failed_msg (Some "all_apis_failed").

(* ===================================================================== *)
(** ** What a dispatch call does *)
(* ===================================================================== *)

(** The single-model stage the key selects. *)
Definition first_consts (env : Env) : StageConsts :=
  if key_startswith env "sk-or-" then openrouter_consts else openai_consts.

(** What the alternative stage does from state [st]. *)
Definition alternative (env : Env) (st : State) (o : Outcome)
    (reqs : list Http.Request) : Prop :=
  match db_fault env with
  | Some e =>
      o = Failure ("Alternative OpenAI Error: " ++ Py.exc_str e) None
      /\ reqs = []
  | None => loop env (table st) models_to_try (outbound st) o reqs
  end.

(** What one dispatch call does: the dict returned, the requests sent, the
    signals emitted and the stage returns, in order. *)
Inductive dispatch (env : Env) (st : State)
  : Outcome -> list Http.Request -> list Signals.Notification ->
    list (Signals.sender * Outcome) -> Prop :=
| dispatch_no_key :
    Py.truthy_opt (OPENAI_API_KEY env) = false ->
    dispatch env st all_failed [] [all_failed_notification] []
| dispatch_first o reqs sigs :
    Py.truthy_opt (OPENAI_API_KEY env) = true ->
    attempt (first_consts env) env st o reqs sigs ->
    get_success o = true ->
    dispatch env st o reqs sigs [(sc_fn (first_consts env), o)]
| dispatch_second o1 reqs1 sigs1 o2 reqs2 :
    Py.truthy_opt (OPENAI_API_KEY env) = true ->
    attempt (first_consts env) env st o1 reqs1 sigs1 ->
    get_success o1 = false ->
    alternative env (extend st reqs1 sigs1 [(sc_fn (first_consts env), o1)])
      o2 reqs2 ->
    get_success o2 = true ->
    dispatch env st o2 (reqs1 ++ reqs2) sigs1
      [(sc_fn (first_consts env), o1);
       (Signals.Fn_try_alternative_openai_api, o2)]
| dispatch_exhausted o1 reqs1 sigs1 o2 reqs2 :
    Py.truthy_opt (OPENAI_API_KEY env) = true ->
    attempt (first_consts env) env st o1 reqs1 sigs1 ->
    get_success o1 = false ->
    alternative env (extend st reqs1 sigs1 [(sc_fn (first_consts env), o1)])
      o2 reqs2 ->
    get_success o2 = false ->
    dispatch env st all_failed (reqs1 ++ reqs2)
      (sigs1 ++ [all_failed_notification])
      [(sc_fn (first_consts env), o1);
       (Signals.Fn_try_alternative_openai_api, o2)].

(* ===================================================================== *)
(** ** Concrete worlds *)
(* ===================================================================== *)

Module Examples.

(** A response with the given status, raw text and decoded body. *)
Definition response (code : Z) (raw : string) (body : Py.json) : Http.Response :=
  {| Http.status_code := code; Http.text := raw; Http.json_body := inr body |}.

(** [{"choices": [{"message": {"content": s}}]}] *)
Definition completion_body (s : string) : Py.json :=
  Py.JObj [("choices",
            Py.JArr [Py.JObj [("message", Py.JObj [("content", Py.JStr s)])]])].

(** A world with the given key and peer: the database is up, the request
    body is valid when it is an object with a string under ["message"]. *)
Definition world (key : option string)
    (peer : list Http.Request -> Http.Request -> Py.result Http.Response) : Env :=
  {| OPENAI_API_KEY := key;
     requests_post := peer;
     db_fault := None;
     typeerror_text :=
       fun v => "'" ++ Py.type_name v ++ "' object is not subscriptable";
     validated_message :=
       fun d =>
         match d with
         | Py.JObj entries =>
             match Py.assoc "message" entries with
             | Some (Py.JStr s) => Some s
             | _ => None
             end
         | _ => None
         end |}.

(** Peers. *)
Definition answers (s : string)
  : list Http.Request -> Http.Request -> Py.result Http.Response :=
  fun _ _ => inr (response 200 "" (completion_body s)).

Definition empty_object
  : list Http.Request -> Http.Request -> Py.result Http.Response :=
  fun _ _ => inr (response 200 "{}" (Py.JObj [])).

Definition refuses (code : Z) (raw : string)
  : list Http.Request -> Http.Request -> Py.result Http.Response :=
  fun _ _ => inr (response code raw (Py.JObj [])).

Definition times_out
  : list Http.Request -> Http.Request -> Py.result Http.Response :=
  fun _ _ => inl (Py.mk_exc Py.Timeout "Read timed out.").

(** The first model of the list gets an empty object with status 200, any
    other model a completion. *)
Definition second_model_answers
  : list Http.Request -> Http.Request -> Py.result Http.Response :=
  fun _ r =>
    if (Http.model (Http.json r) =? "gpt-3.5-turbo")%string
    then inr (response 200 "{}" (Py.JObj []))
    else inr (response 200 "" (completion_body "B")).

(** A table with one user turn, nothing sent yet. *)
Definition one_turn : State :=
  {| table := [{| Models.id := 1; Models.role := "user";
                  Models.content := "What is a tort?" |}];
     next_id := 2; outbound := []; sent := []; trace := [] |}.

Definition message_body (s : string) : Py.json := Py.JObj [("message", Py.JStr s)].

(** Worlds. *)
Definition no_key_world : Env := world None (answers "A tort is...").
Definition tort_world : Env := world (Some "sk-test123") (answers "A tort is...").
Definition unreadable_world : Env := world (Some "sk-test123") empty_object.
Definition down_world : Env := world (Some "sk-test123") (refuses 500 "oops").
Definition unauthorized_world : Env := world (Some "sk-test123") (refuses 401 "").
Definition timeout_world : Env := world (Some "sk-test123") times_out.
Definition second_model_world : Env := world (Some "sk-test123") second_model_answers.

End Examples.

(** The pair (endpoint, model) a request goes to. *)
Definition endpoint_model (r : Http.Request) : string * string :=
  (Http.url r, Http.model (Http.json r)).

(** What a run from [st] sent, emitted and recorded. *)
Definition requests_during {A : Type} (m : M A) (st : State) : list Http.Request :=
  since (outbound st) (outbound (state_of (m st))).

Definition signals_during {A : Type} (m : M A) (st : State)
  : list Signals.Notification :=
  since (sent st) (sent (state_of (m st))).

Definition returns_during {A : Type} (m : M A) (st : State)
  : list (Signals.sender * Outcome) :=
  since (trace st) (trace (state_of (m st))).

(** The exception raised inside the [try] block of a single-model stage:
    by the query on the table, by [requests.post], or while the reply is
    read from a response with status 200. *)
Inductive raised (c : StageConsts) (env : Env) (st : State) (e : Py.exc) : Prop :=
| raised_by_query :
    db_fault env = Some e -> raised c env st e
| raised_by_post :
    db_fault env = None ->
    requests_post env (outbound st) (stage_request c env (table st)) = inl e ->
    raised c env st e
| raised_by_reply resp :
    db_fault env = None ->
    requests_post env (outbound st) (stage_request c env (table st)) = inr resp ->
    Http.status_code resp = 200 ->
    first_choice_content env resp = inl e ->
    raised c env st e.

(** What the [n]-th request of [reqs] yields when the requests before it
    have been sent first, after those of [log]. *)
Definition yields (env : Env) (log reqs : list Http.Request) (n : nat)
  : option Py.json :=
  match nth_error reqs n with
  | Some q => completion env (log ++ firstn n reqs) q
  | None => None
  end.



Ltac state_eq :=
  unfold extend, add_trace, add_outbound, add_sent; simpl;
  rewrite ?app_nil_r; reflexivity.

(** Two equations on the same term: merge them, or close the goal when
    they disagree. *)
Ltac clash :=
  repeat match goal with
         | H1 : ?x = ?a, H2 : ?x = ?b |- _ =>
             rewrite H1 in H2;
             first [ discriminate H2
                   | injection H2; clear H2; intros; subst
                   | clear H2 ]
         end.

Ltac distinct_keys :=
  repeat constructor; simpl; intuition discriminate.

Ltac run_monad :=
  unfold traced, try_except, bind, Message_objects_all, post, lift, ret,
    error_occurred_send.

(* ===================================================================== *)
(** ** More of Python's [str] *)
(* ===================================================================== *)

Module PyStr.

(** [s.lstrip()], [s.rstrip()] and [s.strip()] without argument: the
    characters removed are those for which [isspace] holds. *)
Fixpoint lstrip (s : string) : string :=
  match s with
  | EmptyString => EmptyString
  | String c rest => if Py.isspace c then lstrip rest else s
  end.

Fixpoint rstrip (s : string) : string :=
  match s with
  | EmptyString => EmptyString
  | String c rest =>
      if (rstrip rest =? "")%string && Py.isspace c then EmptyString
      else String c (rstrip rest)
  end.

Definition strip (s : string) : string := rstrip (lstrip s).

(** [s.split()] without argument: the maximal runs of characters that are
    not whitespace, in order. [word] is the run being read. *)
Fixpoint split_from (word s : string) : list string :=
  match s with
  | EmptyString => if (word =? "")%string then [] else [word]
  | String c rest =>
      if Py.isspace c then
        if (word =? "")%string then split_from "" rest
        else word :: split_from "" rest
      else split_from (word ++ String c EmptyString) rest
  end.

Definition split (s : string) : list string := split_from "" s.

(** [s.split(',')[0]]: the text before the first comma. *)
Fixpoint before_comma (s : string) : string :=
  match s with
  | EmptyString => EmptyString
  | String c rest =>
      if (c =? ",")%char then EmptyString else String c (before_comma rest)
  end.

End PyStr.

(* ===================================================================== *)
(** ** The cache ([django.core.cache]) *)
(* ===================================================================== *)

(** A snapshot of the cache: under a key, the value and the timeout it was
    set with. The counters kept by this code are integers. An entry that
    has expired is an entry that is absent; when entries expire is not
    decided by the code and is not modelled. *)
Definition Cache : Type := string -> option (Z * Z).

(** [cache.get(key, default)] *)
Definition cache_get (c : Cache) (key : string) (default : Z) : Z :=
  match c key with
  | Some (v, _) => v
  | None => default
  end.

(** [cache.set(key, value, timeout)] *)
Definition cache_set (c : Cache) (key : string) (value timeout : Z) : Cache :=
  fun k => if (k =? key)%string then Some (value, timeout) else c k.

(* ===================================================================== *)
(** ** [chatbot/signals.py]: the receivers that keep counters *)
(* ===================================================================== *)

Module Handlers.

(** [handle_error_occurred]: logs the error and bumps the counter of its
    type. *)
Definition handle_error_occurred (n : Signals.Notification) (c : Cache) : Cache :=
  let key := "error_count_" ++ Signals.error_type n in
  let error_count := cache_get c key 0 in
  cache_set c key (error_count + 1) 3600.

(** The receiver run on each signal of a list, oldest first, as
    [Signal.send] runs it at each [error_occurred.send]. *)
Definition deliver (sigs : list Signals.Notification) (c : Cache) : Cache :=
  fold_left (fun c n => handle_error_occurred n c) sigs c.

(** [message_post_save]: when the row was created, the counter of its role
    and the total are bumped; the two counts then read from the table for
    the log raise when the database is unavailable, after the cache was
    written. *)
Definition message_post_save (env : Env) (instance : Models.Message)
    (created : bool) (c : Cache) : Py.result unit * Cache :=
  if created then
    let cache_key := "message_count_" ++ Models.role instance in
    let current_count := cache_get c cache_key 0 in
    let c1 := cache_set c cache_key (current_count + 1) 3600 in
    let total_count := cache_get c1 "total_message_count" 0 in
    let c2 := cache_set c1 "total_message_count" (total_count + 1) 3600 in
    (match db_fault env with
     | Some e => inl e
     | None => inr tt
     end, c2)
  else (inr tt, c).

(** [message_post_delete] *)
Definition message_post_delete (instance : Models.Message) (c : Cache) : Cache :=
  let cache_key := "message_count_" ++ Models.role instance in
  let current_count := cache_get c cache_key 0 in
  let c1 :=
    if 0 <? current_count
    then cache_set c cache_key (current_count - 1) 3600
    else c in
  let total_count := cache_get c1 "total_message_count" 0 in
  if 0 <? total_count
  then cache_set c1 "total_message_count" (total_count - 1) 3600
  else c1.

End Handlers.

(* ===================================================================== *)
(** ** Web requests and responses *)
(* ===================================================================== *)

(** What the code reads of a request: the method, the path, the [META]
    dict and, of [POST], the value [POST.get] returns under each name. *)
Record WebRequest : Set := {
  method : string;
  path : string;
  META : list (string * string);
  POST : list (string * string)
}.

(** [JsonResponse(data, status=...)] (status 200 when none is given),
    [redirect(to)], and [render(request, template, {"messages": rows})]. *)
Inductive WebResponse : Type :=
| JsonResponse (body : list (string * Py.json)) (code : Z)
| Redirect (to : string)
| Render (template : string) (rows : list Models.Message).

(* ===================================================================== *)
(** ** [chatbot/middleware.py]: rate limiting *)
(* ===================================================================== *)

Module Middleware.

(** [get_client_ip], the same in [RequestLoggingMiddleware] and
    [RateLimitingMiddleware]; [None] when there is no usable header. *)
Definition get_client_ip (request : WebRequest) : option string :=
  let x_forwarded_for := Py.assoc "HTTP_X_FORWARDED_FOR" (META request) in
  if Py.truthy_opt x_forwarded_for then
    Some (PyStr.before_comma (Py.str_opt x_forwarded_for))
  else Py.assoc "REMOTE_ADDR" (META request).

Module RateLimitingMiddleware.

(** [process_request]: [Some response] answers the request at once,
    [None] lets it through. *)
Definition process_request (request : WebRequest) (c : Cache)
  : option WebResponse * Cache :=
  if prefix "/api/" (path request) then
    let client_ip := get_client_ip request in
    let cache_key := "rate_limit_" ++ Py.str_opt client_ip in
    let request_count := cache_get c cache_key 0 in
    if 100 <=? request_count then
      (Some (JsonResponse
               [("error", Py.JStr "Rate limit exceeded. Please try again later.");
                ("error_type", Py.JStr "rate_limit")]
               429),
       c)
    else (None, cache_set c cache_key (request_count + 1) 3600)
  else (None, c).

(** The middleware run on a sequence of requests, each on the cache the
    one before left. *)
Fixpoint serve (requests : list WebRequest) (c : Cache)
  : list (option WebResponse) * Cache :=
  match requests with
  | [] => ([], c)
  | request :: rest =>
      let (answer, c1) := process_request request c in
      let (answers, c2) := serve rest c1 in
      (answer :: answers, c2)
  end.

End RateLimitingMiddleware.

End Middleware.

(* ===================================================================== *)
(** ** [chatbot/admin.py]: the computed columns *)
(* ===================================================================== *)

Module MessageAdmin.

(** [word_count] *)
Definition word_count (obj : Models.Message) : Z :=
  Z.of_nat (length (PyStr.split (Models.content obj))).

(** A [timedelta], normalised as Python keeps it: [0 <= seconds < 86400]
    and [0 <= microseconds < 1000000]; [days] carries the sign. *)
Record timedelta : Set := { days : Z; seconds : Z; microseconds : Z }.

(** [a - b] for two datetimes given in microseconds since the epoch. *)
Definition datetime_sub (a b : Z) : timedelta :=
  let d := a - b in
  {| days := d / 86400000000;
     seconds := (d mod 86400000000) / 1000000;
     microseconds := d mod 1000000 |}.

(** [time_ago], with [timezone.now()] and [obj.created_at] given in
    microseconds since the epoch. *)
Definition time_ago (now created_at : Z) : string :=
  let diff := datetime_sub now created_at in
  if 0 <? days diff then
    Py.str_int (days diff) ++ " day"
    ++ (if negb (days diff =? 1) then "s" else "") ++ " ago"
  else if 3600 <? seconds diff then
    let hours := seconds diff / 3600 in
    Py.str_int hours ++ " hour"
    ++ (if negb (hours =? 1) then "s" else "") ++ " ago"
  else if 60 <? seconds diff then
    let minutes := seconds diff / 60 in
    Py.str_int minutes ++ " minute"
    ++ (if negb (minutes =? 1) then "s" else "") ++ " ago"
  else "Just now".

End MessageAdmin.

(* ===================================================================== *)
(** ** [chatbot/views.py]: the web view *)
(* ===================================================================== *)

Section WebView.

Variable env : Env.

(** [request.headers.get('X-Requested-With') == 'XMLHttpRequest'] *)
Definition is_ajax (request : WebRequest) : bool :=
  match Py.assoc "HTTP_X_REQUESTED_WITH" (META request) with
  | Some v => (v =? "XMLHttpRequest")%string
  | None => false
  end.

(** The two statements that end the [POST] branch. *)
Definition no_message (request : WebRequest) : M WebResponse :=
  if is_ajax request then
    ret (JsonResponse [("error", Py.JStr "No message provided")] 200)
  else ret (Redirect "chat").

Definition chat_view (request : WebRequest) : M WebResponse :=
  if (method request =? "POST")%string then
    let user_input :=
      PyStr.strip match Py.assoc "message" (POST request) with
                  | Some v => v
                  | None => ""
                  end in
    if negb (user_input =? "")%string then
      user_message <- Message_objects_create env "user" (Py.JStr user_input) ;;
      if negb (Py.truthy_opt (OPENAI_API_KEY env)) then
        let error_msg :=
          "OpenAI API key is not configured. Please set the OPENAI_API_KEY environment variable." in
        Message_objects_create env "assistant" (Py.JStr error_msg) ;;
        if is_ajax request then
          ret (JsonResponse [("error", Py.JStr error_msg)] 200)
        else ret (Redirect "chat")
      else
        ai_response <- get_ai_response_external_only env user_input ;;
        match ai_response with
        | Success response =>
            assistant_message <-
              Message_objects_create env "assistant" response ;;
            if is_ajax request then
              ret (JsonResponse
                     [("response", response);
                      ("message_id", Py.JInt (Models.id assistant_message))]
                     200)
            else no_message request
        | Failure error error_type =>
            error_message <-
              Message_objects_create env "assistant" (Py.JStr error) ;;
            if is_ajax request then
              ret (JsonResponse
                     [("error", Py.JStr error);
                      ("error_type",
                       Py.JStr match error_type with
                               | Some t => t
                               | None => "api_error"
                               end)]
                     200)
            else no_message request
        end
    else no_message request
  else
    messages <- Message_objects_all env ;;
    ret (Render "index.html" messages).

End WebView.

(** Every row of a table has content that is not blank and is at most
    5000 characters long. *)
Definition row_ok (m : Models.Message) : Prop :=
  Py.all_space (Models.content m) = false
  /\ (String.length (Models.content m) <= 5000)%nat.

(** A computation keeps the rows well-formed, whether it returns or raises. *)
Definition keeps_rows {A : Type} (m : M A) : Prop :=
  forall st, Forall row_ok (table st) -> Forall row_ok (table (snd (m st))).

(** No character of the string is a comma. *)
Fixpoint comma_free (s : string) : Prop :=
  match s with
  | EmptyString => True
  | String c rest => c <> ","%char /\ comma_free rest
  end.

(** The [cache_key] under which [RateLimitingMiddleware] counts a request. *)
Definition rate_key (request : WebRequest) : string :=
  "rate_limit_" ++ Py.str_opt (Middleware.get_client_ip request).

(** Whether the middleware answered the request itself. *)
Definition answered (a : option WebResponse) : bool :=
  match a with
  | Some _ => true
  | None => false
  end.

Module MoreExamples.

Definition ajax_post (text : string) : WebRequest :=
  {| method := "POST"; path := "/";
     META := [("HTTP_X_REQUESTED_WITH", "XMLHttpRequest")];
     POST := [("message", text)] |}.

Definition api_call (forwarded : string) : WebRequest :=
  {| method := "POST"; path := "/api/chat/";
     META := [("HTTP_X_FORWARDED_FOR", forwarded); ("REMOTE_ADDR", "10.0.0.1")];
     POST := [] |}.

Definition empty_cache : Cache := fun _ => None.

(** The body is there, its content is JSON [null]. *)
Definition null_content
  : list Http.Request -> Http.Request -> Py.result Http.Response :=
  fun _ _ =>
    inr (Examples.response 200 ""
           (Py.JObj [("choices",
                      Py.JArr [Py.JObj [("message",
                                          Py.JObj [("content", Py.JNull)])]])])).

Definition null_world : Env := Examples.world (Some "sk-test123") null_content.

(** The key is the empty string. *)
Definition empty_key_world : Env :=
  Examples.world (Some "") (Examples.answers "A tort is...").

(** The peer answers 200 with an HTML page: [resp.json()] raises the JSON
    decoding error of [requests], which is a [RequestException]. *)
Definition html_page
  : list Http.Request -> Http.Request -> Py.result Http.Response :=
  fun _ _ =>
    inr {| Http.status_code := 200;
           Http.text := "<html></html>";
           Http.json_body :=
             inl (Py.mk_exc Py.RequestException
                    "Expecting value: line 1 column 1 (char 0)") |}.

Definition html_world : Env := Examples.world (Some "sk-test123") html_page.

Definition router_key_world : Env :=
  Examples.world (Some "sk-or-abc") (Examples.refuses 503 "down").

End MoreExamples.

(* ===================================================================== *)
(** ** Runs of the stage functions *)
(* ===================================================================== *)

Lemma try_openai_api_shape env user_input :
  try_openai_api env user_input = single_stage openai_consts env.
Proof. reflexivity. Qed.

Lemma try_openrouter_api_shape env user_input :
  try_openrouter_api env user_input = single_stage openrouter_consts env.
Proof. reflexivity. Qed.

Lemma extend_nil st : extend st [] [] [] = st.
Proof. destruct st; unfold extend; simpl; rewrite !app_nil_r; reflexivity. Qed.

Lemma extend_extend st a b c a' b' c' :
  extend (extend st a b c) a' b' c' = extend st (a ++ a') (b ++ b') (c ++ c').
Proof. unfold extend; simpl; rewrite !app_assoc; reflexivity. Qed.

Lemma since_app {A : Type} (l new : list A) : since l (l ++ new) = new.
Proof.
  unfold since. induction l as [| x l IH]; simpl; [reflexivity | exact IH].
Qed.

Lemma since_same {A : Type} (l : list A) : since l l = [].
Proof. rewrite <- (app_nil_r l) at 2. apply since_app. Qed.

Lemma handle_run c e st : handle c e st = (inr (on_exception c e), st).
Proof.
  unfold handle, on_exception, ret.
  destruct (Py.is_Timeout e); [reflexivity |].
  destruct (Py.is_RequestException e); reflexivity.
Qed.

(** A single-model stage always returns a dict, and what it does is one of
    the cases of [attempt]. *)
Lemma single_stage_run c env st :
  exists o reqs sigs,
    single_stage c env st = (inr o, extend st reqs sigs [(sc_fn c, o)])
    /\ attempt c env st o reqs sigs.
Proof.
  unfold single_stage. run_monad.
  destruct (db_fault env) as [e |] eqn:Hdb.
  { rewrite handle_run.
    exists (on_exception c e), [], []. split; [f_equal; state_eq |].
    now apply attempt_db_fault. }
  simpl.
  destruct (requests_post env (outbound st) (stage_request c env (table st)))
    as [e | resp] eqn:Hpost.
  { rewrite handle_run.
    exists (on_exception c e), [stage_request c env (table st)], [].
    split; [f_equal; state_eq | now apply attempt_raised]. }
  destruct (Z.eqb_spec (Http.status_code resp) 200) as [H200 | H200].
  { destruct (first_choice_content env resp) as [e | reply_text] eqn:Hbody.
    - rewrite handle_run.
      exists (on_exception c e), [stage_request c env (table st)], [].
      split; [f_equal; state_eq | now apply attempt_unreadable with resp].
    - exists (Success reply_text), [stage_request c env (table st)], [].
      split; [f_equal; state_eq | now apply attempt_reply with resp]. }
  destruct (Z.eqb_spec (Http.status_code resp) 401) as [H401 | H401].
  { eexists _, [stage_request c env (table st)], [_].
    split; [simpl; f_equal; state_eq | now apply attempt_401 with resp]. }
  destruct (Z.eqb_spec (Http.status_code resp) 429) as [H429 | H429].
  { eexists _, [stage_request c env (table st)], [_].
    split; [simpl; f_equal; state_eq | now apply attempt_429 with resp]. }
  eexists _, [stage_request c env (table st)], [_].
  split; [simpl; f_equal; state_eq | now apply attempt_status].
Qed.

(** One turn of the loop: the request is sent, and the turn returns exactly
    when the call yields a completion. *)
Lemma try_model_run env rows model st :
  try_model env
    [("Authorization", "Bearer " ++ Py.str_opt (OPENAI_API_KEY env));
     ("Content-Type", "application/json")]
    (system_prompt :: map as_chat rows) model st
  = (inr match completion env (outbound st) (model_request env rows model) with
         | Some reply_text => Some (Success reply_text)
         | None => None
         end,
     extend st [model_request env rows model] [] []).
Proof.
  unfold try_model, completion. run_monad.
  change {| Http.url := openai_url;
            Http.headers := _; Http.json := _; Http.timeout := 30 |}
    with (model_request env rows model).
  destruct (requests_post env (outbound st) (model_request env rows model))
    as [e | resp]; [f_equal; state_eq |].
  destruct (Http.status_code resp =? 200).
  - destruct (first_choice_content env resp); f_equal; state_eq.
  - destruct (Http.status_code resp =? 401); [f_equal; state_eq |].
    destruct (Http.status_code resp =? 429); f_equal; state_eq.
Qed.

(** The loop always returns, and what it does is described by [loop]. *)
Lemma for_model_in_run env rows models : forall st,
  exists o reqs,
    for_model_in env
      [("Authorization", "Bearer " ++ Py.str_opt (OPENAI_API_KEY env));
       ("Content-Type", "application/json")]
      (system_prompt :: map as_chat rows) models st
    = (inr o, extend st reqs [] [])
    /\ loop env rows models (outbound st) o reqs.
Proof.
  induction models as [| model rest IH]; intros st.
  - exists (Failure "All OpenAI models failed" None), [].
    split; [simpl; unfold ret; now rewrite extend_nil | constructor].
  - cbn [for_model_in]. unfold bind at 1. rewrite try_model_run.
    destruct (completion env (outbound st) (model_request env rows model))
      as [reply_text |] eqn:Hc.
    + exists (Success reply_text), [model_request env rows model].
      split; [reflexivity | now apply loop_hit].
    + destruct (IH (extend st [model_request env rows model] [] []))
        as (o & reqs & Hrun & Hloop).
      exists o, (model_request env rows model :: reqs).
      split.
      * rewrite Hrun, extend_extend. reflexivity.
      * apply loop_next; [exact Hc | exact Hloop].
Qed.

(** The alternative stage always returns a dict; it emits no signal. *)
Lemma try_alternative_openai_api_run env user_input st :
  exists o reqs,
    try_alternative_openai_api env user_input st
    = (inr o, extend st reqs [] [(Signals.Fn_try_alternative_openai_api, o)])
    /\ match db_fault env with
       | Some e =>
           o = Failure ("Alternative OpenAI Error: " ++ Py.exc_str e) None
           /\ reqs = []
       | None => loop env (table st) models_to_try (outbound st) o reqs
       end.
Proof.
  unfold try_alternative_openai_api.
  unfold traced, try_except, bind at 1, Message_objects_all.
  destruct (db_fault env) as [e |] eqn:Hdb.
  { eexists _, []. split; [unfold ret; f_equal; state_eq | split; reflexivity]. }
  destruct (for_model_in_run env (table st) models_to_try st)
    as (o & reqs & Hrun & Hloop).
  exists o, reqs. rewrite Hrun. split; [| exact Hloop].
  f_equal. unfold extend, add_trace; simpl. now rewrite !app_nil_r.
Qed.

(* ===================================================================== *)
(** ** Runs of the dispatcher *)
(* ===================================================================== *)

Lemma give_up_run st :
  bind (error_occurred_send Signals.Fn_get_ai_response_external_only
          "all_apis_failed" all_failed_msg)
       (fun _ => ret (Failure all_failed_msg (Some "all_apis_failed"))) st
  = (inr all_failed, extend st [] [all_failed_notification] []).
Proof. run_monad. f_equal. state_eq. Qed.

(** The part of the dispatcher that follows the single-model stages, run
    with a key that is set. *)
Lemma second_stage_run env user_input st :
  exists o2 reqs2,
    alternative env st o2 reqs2
    /\ return_if_success true (try_alternative_openai_api env user_input)
         (bind (error_occurred_send Signals.Fn_get_ai_response_external_only
                  "all_apis_failed" all_failed_msg)
               (fun _ => ret (Failure all_failed_msg (Some "all_apis_failed")))) st
       = if get_success o2
         then (inr o2,
               extend st reqs2 [] [(Signals.Fn_try_alternative_openai_api, o2)])
         else (inr all_failed,
               extend st reqs2 [all_failed_notification]
                 [(Signals.Fn_try_alternative_openai_api, o2)]).
Proof.
  destruct (try_alternative_openai_api_run env user_input st)
    as (o2 & reqs2 & Hrun & Halt).
  exists o2, reqs2. split; [exact Halt |].
  unfold return_if_success, bind at 1. rewrite Hrun.
  destruct (get_success o2); [reflexivity |].
  rewrite give_up_run, extend_extend, app_nil_r. reflexivity.
Qed.

(** A dispatch call always returns a dict, and what it does is one of the
    cases of [dispatch]. *)
Lemma dispatcher_run env user_input st :
  exists o reqs sigs rets,
    get_ai_response_external_only env user_input st
    = (inr o, extend st reqs sigs rets)
    /\ dispatch env st o reqs sigs rets.
Proof.
  unfold get_ai_response_external_only.
  destruct (Py.truthy_opt (OPENAI_API_KEY env)) eqn:Hkey.
  2:{ simpl. unfold return_if_success. rewrite give_up_run.
      exists all_failed, [], [all_failed_notification], [].
      split; [reflexivity | now apply dispatch_no_key]. }
  assert (Hfirst :
    exists o1 reqs1 sigs1,
      attempt (first_consts env) env st o1 reqs1 sigs1
      /\ forall rest,
           return_if_success (true && negb (key_startswith env "sk-or-"))
             (try_openai_api env user_input)
             (return_if_success (true && key_startswith env "sk-or-")
                (try_openrouter_api env user_input) rest) st
           = if get_success o1
             then (inr o1,
                   extend st reqs1 sigs1 [(sc_fn (first_consts env), o1)])
             else rest (extend st reqs1 sigs1 [(sc_fn (first_consts env), o1)])).
  { unfold first_consts.
    destruct (key_startswith env "sk-or-"); cbn [andb negb].
    - destruct (single_stage_run openrouter_consts env st)
        as (o1 & reqs1 & sigs1 & Hrun & Hatt).
      exists o1, reqs1, sigs1. split; [exact Hatt |]. intros rest.
      unfold return_if_success at 1. unfold return_if_success, bind.
      rewrite try_openrouter_api_shape, Hrun.
      destruct (get_success o1); reflexivity.
    - destruct (single_stage_run openai_consts env st)
        as (o1 & reqs1 & sigs1 & Hrun & Hatt).
      exists o1, reqs1, sigs1. split; [exact Hatt |]. intros rest.
      unfold return_if_success at 1. unfold bind.
      rewrite try_openai_api_shape, Hrun.
      destruct (get_success o1); reflexivity. }
  destruct Hfirst as (o1 & reqs1 & sigs1 & Hatt & Hrun).
  rewrite Hrun.
  destruct (get_success o1) eqn:Hs1.
  { exists o1, reqs1, sigs1, [(sc_fn (first_consts env), o1)].
    split; [reflexivity | now apply dispatch_first]. }
  destruct (second_stage_run env user_input
              (extend st reqs1 sigs1 [(sc_fn (first_consts env), o1)]))
    as (o2 & reqs2 & Halt & Hrun2).
  rewrite Hrun2.
  destruct (get_success o2) eqn:Hs2.
  - exists o2, (reqs1 ++ reqs2)%list, sigs1,
      [(sc_fn (first_consts env), o1);
       (Signals.Fn_try_alternative_openai_api, o2)].
    split.
    + rewrite extend_extend, app_nil_r. reflexivity.
    + now apply dispatch_second.
  - exists all_failed, (reqs1 ++ reqs2)%list,
      (sigs1 ++ [all_failed_notification])%list,
      [(sc_fn (first_consts env), o1);
       (Signals.Fn_try_alternative_openai_api, o2)].
    split.
    + rewrite extend_extend. reflexivity.
    + now apply dispatch_exhausted.
Qed.

(* ===================================================================== *)
(** ** What the runs leave in the logs *)
(* ===================================================================== *)

Lemma observe_extend {A : Type} (m : M A) st v reqs sigs rets :
  m st = (v, extend st reqs sigs rets) ->
  value_of (m st) = v
  /\ requests_during m st = reqs
  /\ signals_during m st = sigs
  /\ returns_during m st = rets.
Proof.
  intros H. unfold value_of, requests_during, signals_during, returns_during,
    state_of.
  rewrite H. simpl. rewrite !since_app. repeat split.
Qed.

Lemma attempt_requests c env st o reqs sigs :
  attempt c env st o reqs sigs ->
  reqs = [] \/ reqs = [stage_request c env (table st)].
Proof. destruct 1; auto. Qed.

Lemma loop_requests env rows models log o reqs :
  loop env rows models log o reqs ->
  exists n, reqs = map (model_request env rows) (firstn n models).
Proof.
  induction 1 as [log | model rest log r Hc | model rest log o reqs Hc Hl IH].
  - exists 0%nat. reflexivity.
  - exists 1%nat. reflexivity.
  - destruct IH as (n & ->). exists (S n). reflexivity.
Qed.

Lemma alternative_requests env st o reqs :
  alternative env st o reqs ->
  exists n, reqs = map (model_request env (table st)) (firstn n models_to_try).
Proof.
  unfold alternative. destruct (db_fault env).
  - intros (_ & ->). exists 0%nat. reflexivity.
  - apply loop_requests.
Qed.

Lemma key_startswith_some env key p :
  OPENAI_API_KEY env = Some key -> key_startswith env p = prefix p key.
Proof. unfold key_startswith. now intros ->. Qed.

Lemma truthy_opt_some env key :
  OPENAI_API_KEY env = Some key -> key <> "" ->
  Py.truthy_opt (OPENAI_API_KEY env) = true.
Proof.
  intros -> Hne. simpl. destruct (String.eqb_spec key ""); [contradiction | easy].
Qed.

(* ===================================================================== *)
(** ** The credential check *)
(* ===================================================================== *)

Lemma dispatcher_without_key env user_input st :
  Py.truthy_opt (OPENAI_API_KEY env) = false ->
  value_of (get_ai_response_external_only env user_input st) = inr all_failed
  /\ requests_during (get_ai_response_external_only env user_input) st = []
  /\ signals_during (get_ai_response_external_only env user_input) st
     = [all_failed_notification]
  /\ returns_during (get_ai_response_external_only env user_input) st = [].
Proof.
  intros Hkey.
  destruct (dispatcher_run env user_input st)
    as (o & reqs & sigs & rets & Hrun & Hd).
  destruct (observe_extend _ _ _ _ _ _ Hrun) as (Hv & Hr & Hs & Ht).
  rewrite Hv, Hr, Hs, Ht.
  destruct Hd as [_ | o reqs sigs Hk | o1 reqs1 sigs1 o2 reqs2 Hk
                 | o1 reqs1 sigs1 o2 reqs2 Hk]; try congruence.
  repeat split.
Qed.

(** C1. With an empty or absent credential, [chat_api] answers a valid
    message with the failure of kind [configuration_error]. The test comes
    before the user turn is saved and before the dispatcher is called: the
    state is left as it was, so no request is sent, no stage runs and no
    signal is emitted. The dispatcher itself, run with such a credential,
    sends no request and runs no stage either. *)
Theorem credential_checked_first env request_data user_input st :
  validated_message env request_data = Some user_input ->
  Py.truthy_opt (OPENAI_API_KEY env) = false ->
  value_of (chat_api env request_data st)
  = inr {| data :=
             [("error",
               Py.JStr "OpenAI API key is not configured. Please set the OPENAI_API_KEY environment variable.");
              ("error_type", Py.JStr "configuration_error")];
           status := 500 |}
  /\ state_of (chat_api env request_data st) = st
  /\ requests_during (chat_api env request_data) st = []
  /\ returns_during (chat_api env request_data) st = []
  /\ signals_during (chat_api env request_data) st = []
  /\ requests_during (get_ai_response_external_only env user_input) st = []
  /\ returns_during (get_ai_response_external_only env user_input) st = [].
Proof.
  intros Hvalid Hkey.
  assert (Hrun : chat_api env request_data st
                 = (inr {| data :=
                             [("error",
                               Py.JStr "OpenAI API key is not configured. Please set the OPENAI_API_KEY environment variable.");
                              ("error_type", Py.JStr "configuration_error")];
                           status := 500 |}, st)).
  { unfold chat_api. rewrite Hvalid, Hkey. reflexivity. }
  destruct (dispatcher_without_key env user_input st Hkey)
    as (_ & Hreqs & _ & Hrets).
  unfold value_of, state_of, requests_during, returns_during, signals_during,
    state_of.
  rewrite Hrun. cbn [fst snd].
  unfold requests_during, returns_during, state_of in Hreqs, Hrets.
  rewrite Hreqs, Hrets. repeat split; apply since_same.
Qed.

Lemma credential_checked_first_witness :
  validated_message MoreExamples.empty_key_world (Examples.message_body "hello")
  = Some "hello"
  /\ Py.truthy_opt (OPENAI_API_KEY MoreExamples.empty_key_world) = false
  /\ state_of (chat_api MoreExamples.empty_key_world
                 (Examples.message_body "hello") Examples.one_turn)
     = Examples.one_turn.
Proof.
  split; [reflexivity |]. split; [reflexivity |].
  apply (credential_checked_first MoreExamples.empty_key_world
           (Examples.message_body "hello") "hello" Examples.one_turn);
    reflexivity.
Defined.

(* ===================================================================== *)
(** ** Which stages a credential selects *)
(* ===================================================================== *)



(* ===================================================================== *)
(** ** Stopping at the first reply *)
(* ===================================================================== *)

Lemma attempt_reply_inv c env st resp reply_text o reqs sigs :
  db_fault env = None ->
  requests_post env (outbound st) (stage_request c env (table st)) = inr resp ->
  Http.status_code resp = 200 ->
  first_choice_content env resp = inr reply_text ->
  attempt c env st o reqs sigs ->
  o = Success reply_text /\ reqs = [stage_request c env (table st)] /\ sigs = [].
Proof.
  intros Hdb Hpost H200 Hbody Hatt.
  destruct Hatt as [e He | e _ He | resp' r' _ Hp _ Hb | resp' e _ Hp _ Hb
                   | resp' _ Hp Hs | resp' _ Hp Hs | resp' _ Hp Hs _ _];
    try congruence;
    rewrite Hpost in Hp; injection Hp as <-; try congruence; try lia.
  rewrite Hbody in Hb. injection Hb as <-. repeat split.
Qed.

(** C3, as the code has it. When the first stage attempted (the OpenAI
    stage, or the OpenRouter stage for a credential starting with [sk-or-])
    gets a response with status 200 from which the first choice's content
    can be read, the dispatcher returns that content as a success, that
    stage is the only one that ran and its request the only one sent. *)
Theorem first_reply_stops env user_input st key resp reply_text :
  OPENAI_API_KEY env = Some key ->
  key <> "" ->
  db_fault env = None ->
  let c := if prefix "sk-or-" key then openrouter_consts else openai_consts in
  requests_post env (outbound st) (stage_request c env (table st)) = inr resp ->
  Http.status_code resp = 200 ->
  first_choice_content env resp = inr reply_text ->
  value_of (get_ai_response_external_only env user_input st)
  = inr (Success reply_text)
  /\ requests_during (get_ai_response_external_only env user_input) st
     = [stage_request c env (table st)]
  /\ returns_during (get_ai_response_external_only env user_input) st
     = [(sc_fn c, Success reply_text)].
Proof.
  intros Hkey Hne Hdb c Hpost H200 Hbody.
  pose proof (truthy_opt_some env key Hkey Hne) as Htruthy.
  assert (Hc : first_consts env = c).
  { unfold first_consts, c. now rewrite (key_startswith_some env key _ Hkey). }
  destruct (dispatcher_run env user_input st)
    as (o & reqs & sigs & rets & Hrun & Hd).
  destruct (observe_extend _ _ _ _ _ _ Hrun) as (Hv & Hr & _ & Ht).
  rewrite Hv, Hr, Ht. clear Hrun Hv Hr Ht.
  destruct Hd as [Hk | o reqs sigs Hk Hatt Hs
                 | o1 reqs1 sigs1 o2 reqs2 Hk Hatt Hs1 Ha Hs2
                 | o1 reqs1 sigs1 o2 reqs2 Hk Hatt Hs1 Ha Hs2];
    try congruence; rewrite Hc in *;
    destruct (attempt_reply_inv _ _ _ _ _ _ _ _ Hdb Hpost H200 Hbody Hatt)
      as (-> & -> & ->);
    try discriminate.
  repeat split.
Qed.

Lemma first_reply_stops_witness :
  OPENAI_API_KEY Examples.tort_world = Some "sk-test123"
  /\ value_of (get_ai_response_external_only Examples.tort_world
                 "What is a tort?" Examples.one_turn)
     = inr (Success (Py.JStr "A tort is..."))
  /\ length (requests_during
               (get_ai_response_external_only Examples.tort_world
                  "What is a tort?") Examples.one_turn) = 1%nat.
Proof.
  split; [reflexivity |].
  destruct (first_reply_stops Examples.tort_world "What is a tort?"
              Examples.one_turn "sk-test123"
              (Examples.response 200 "" (Examples.completion_body "A tort is..."))
              (Py.JStr "A tort is..."))
    as (Hv & Hr & _); try reflexivity; try discriminate.
  split; [exact Hv | now rewrite Hr].
Defined.

(** C3 as stated fails: the OpenAI stage gets a response with status 200,
    the body is the empty object, and the dispatcher goes on to the
    alternative stage and ends with the failure of kind [all_apis_failed]. *)
Lemma first_200_not_success :
  (exists resp,
     requests_post Examples.unreadable_world (outbound Examples.one_turn)
       (stage_request openai_consts Examples.unreadable_world
          (table Examples.one_turn)) = inr resp
     /\ Http.status_code resp = 200)
  /\ value_of (get_ai_response_external_only Examples.unreadable_world
                 "What is a tort?" Examples.one_turn)
     = inr (Failure all_failed_msg (Some "all_apis_failed"))
  /\ map fst (returns_during
                (get_ai_response_external_only Examples.unreadable_world
                   "What is a tort?") Examples.one_turn)
     = [Signals.Fn_try_openai_api; Signals.Fn_try_alternative_openai_api].
Proof.
  split; [eexists; split; reflexivity |].
  split; vm_compute; reflexivity.
Qed.

(* ===================================================================== *)
(** ** Exhaustion *)
(* ===================================================================== *)

(** C5. When every stage that ran returned a failure, the dispatcher
    returns the failure of kind [all_apis_failed] with one fixed message,
    whatever the stages returned. *)
Theorem exhaustion env user_input st :
  (forall fn o,
      In (fn, o) (returns_during (get_ai_response_external_only env user_input) st) ->
      get_success o = false) ->
  value_of (get_ai_response_external_only env user_input st)
  = inr (Failure
           "All external AI services are currently unavailable. Please check your API key configuration or try again later."
           (Some "all_apis_failed")).
Proof.
  intros Hall.
  destruct (dispatcher_run env user_input st)
    as (o & reqs & sigs & rets & Hrun & Hd).
  destruct (observe_extend _ _ _ _ _ _ Hrun) as (Hv & _ & _ & Ht).
  rewrite Hv. rewrite Ht in Hall. clear Hrun Hv Ht.
  destruct Hd as [Hk | o reqs sigs Hk Hatt Hs
                 | o1 reqs1 sigs1 o2 reqs2 Hk Hatt Hs1 Ha Hs2
                 | o1 reqs1 sigs1 o2 reqs2 Hk Hatt Hs1 Ha Hs2];
    try reflexivity.
  - rewrite (Hall _ o (or_introl eq_refl)) in Hs. discriminate.
  - rewrite (Hall _ o2 (or_intror (or_introl eq_refl))) in Hs2. discriminate.
Qed.

Lemma exhaustion_witness :
  value_of (get_ai_response_external_only Examples.down_world "hello"
              Examples.one_turn)
  = inr (Failure all_failed_msg (Some "all_apis_failed")).
Proof.
  apply (exhaustion Examples.down_world "hello" Examples.one_turn).
  intros fn o H. vm_compute in H.
  destruct H as [H | [H | []]]; injection H as _ <-; reflexivity.
Defined.

(* ===================================================================== *)
(** ** The text passed in *)
(* ===================================================================== *)

(** C10. The argument [user_input] has no effect: for any two texts the
    dispatcher and each of the three stage functions return the same dict
    and leave the same state, so the same requests are sent. *)
Theorem user_input_ignored env st (text1 text2 : string) :
  get_ai_response_external_only env text1 st
  = get_ai_response_external_only env text2 st
  /\ try_openai_api env text1 st = try_openai_api env text2 st
  /\ try_openrouter_api env text1 st = try_openrouter_api env text2 st
  /\ try_alternative_openai_api env text1 st
     = try_alternative_openai_api env text2 st.
Proof. repeat split. Qed.

(* ===================================================================== *)
(** ** How a single-model stage classifies what happened *)
(* ===================================================================== *)

Lemma attempt_raised_inv c env st e o reqs sigs :
  raised c env st e ->
  attempt c env st o reqs sigs ->
  o = on_exception c e /\ sigs = [].
Proof.
  intros Hr Hatt.
  destruct Hr; destruct Hatt; clash; try contradiction; split; reflexivity.
Qed.

Lemma attempt_status_inv c env st resp o reqs sigs :
  db_fault env = None ->
  requests_post env (outbound st) (stage_request c env (table st)) = inr resp ->
  Http.status_code resp <> 200 ->
  attempt c env st o reqs sigs ->
  exists kind msg,
    o = Failure msg (Some kind)
    /\ sigs = [notification c kind msg]
    /\ (Http.status_code resp = 401 -> kind = "auth_error" /\ msg = auth_msg c)
    /\ (Http.status_code resp = 429 -> kind = "rate_limit" /\ msg = sc_rate_msg c)
    /\ (Http.status_code resp <> 401 -> Http.status_code resp <> 429 ->
        kind = "api_error" /\ msg = status_msg c resp).
Proof.
  intros Hdb Hpost Hne Hatt.
  destruct Hatt; clash; try contradiction;
    eexists _, _; (split; [reflexivity |]); (split; [reflexivity |]);
    repeat split; intros; try lia; try contradiction.
Qed.

Lemma on_exception_kind c e :
  (Py.exc_type e = Py.Timeout ->
   exists msg, on_exception c e = Failure msg (Some "timeout"))
  /\ (Py.exc_type e = Py.RequestException ->
      exists msg, on_exception c e = Failure msg (Some "network_error"))
  /\ (Py.exc_type e <> Py.Timeout -> Py.exc_type e <> Py.RequestException ->
      exists msg, on_exception c e = Failure msg (Some "api_error")).
Proof.
  unfold on_exception, Py.is_Timeout, Py.is_RequestException.
  destruct (Py.exc_type e); repeat split; intros; try congruence; eexists;
    reflexivity.
Qed.

Lemma single_stage_observed c env st :
  exists o reqs sigs,
    attempt c env st o reqs sigs
    /\ value_of (single_stage c env st) = inr o
    /\ requests_during (single_stage c env) st = reqs
    /\ signals_during (single_stage c env) st = sigs
    /\ returns_during (single_stage c env) st = [(sc_fn c, o)].
Proof.
  destruct (single_stage_run c env st) as (o & reqs & sigs & Hrun & Hatt).
  exists o, reqs, sigs. split; [exact Hatt |].
  exact (observe_extend _ _ _ _ _ _ Hrun).
Qed.

(** C4, as the code has it. A call of [try_openai_api] or of
    [try_openrouter_api] always returns a dict. A response with status 200
    gives a success with the first choice's content when that can be read
    from the body; 401 gives [auth_error]; 429 gives [rate_limit]; any
    other status gives [api_error] with the status code and the raw body
    in the message. An exception raised inside the attempt (by the query,
    by the call, or while the reply is read from a response with status
    200) is classified by its class alone: [Timeout] gives [timeout], any
    other [RequestException] gives [network_error], anything else gives
    [api_error]. *)
Theorem stage_classification f c :
  (f = try_openai_api /\ c = openai_consts)
  \/ (f = try_openrouter_api /\ c = openrouter_consts) ->
  forall env user_input st,
    (exists o, value_of (f env user_input st) = inr o)
    /\ (forall resp,
          db_fault env = None ->
          requests_post env (outbound st) (stage_request c env (table st))
          = inr resp ->
          (Http.status_code resp = 200 ->
           forall reply_text,
             first_choice_content env resp = inr reply_text ->
             value_of (f env user_input st) = inr (Success reply_text))
          /\ (Http.status_code resp = 401 ->
              exists msg,
                value_of (f env user_input st)
                = inr (Failure msg (Some "auth_error")))
          /\ (Http.status_code resp = 429 ->
              exists msg,
                value_of (f env user_input st)
                = inr (Failure msg (Some "rate_limit")))
          /\ (Http.status_code resp <> 200 ->
              Http.status_code resp <> 401 ->
              Http.status_code resp <> 429 ->
              value_of (f env user_input st)
              = inr (Failure
                       (sc_name c ++ " API Error (Status "
                        ++ Py.str_int (Http.status_code resp) ++ "): "
                        ++ Http.text resp)
                       (Some "api_error"))))
    /\ (forall e,
          raised c env st e ->
          (Py.exc_type e = Py.Timeout ->
           exists msg,
             value_of (f env user_input st) = inr (Failure msg (Some "timeout")))
          /\ (Py.exc_type e = Py.RequestException ->
              exists msg,
                value_of (f env user_input st)
                = inr (Failure msg (Some "network_error")))
          /\ (Py.exc_type e <> Py.Timeout ->
              Py.exc_type e <> Py.RequestException ->
              exists msg,
                value_of (f env user_input st)
                = inr (Failure msg (Some "api_error")))).
Proof.
  intros Hf env user_input st.
  assert (Hshape : f env user_input = single_stage c env).
  { destruct Hf as [[-> ->] | [-> ->]]; reflexivity. }
  rewrite Hshape. clear Hshape Hf.
  destruct (single_stage_observed c env st)
    as (o & reqs & sigs & Hatt & Hv & _).
  rewrite Hv.
  split; [now exists o |]. split.
  - intros resp Hdb Hpost. repeat split.
    + intros H200 reply_text Hbody.
      destruct (attempt_reply_inv _ _ _ _ _ _ _ _ Hdb Hpost H200 Hbody Hatt)
        as (-> & _). reflexivity.
    + intros H401.
      destruct (attempt_status_inv _ _ _ _ _ _ _ Hdb Hpost ltac:(lia) Hatt)
        as (kind & msg & -> & _ & H & _).
      destruct (H H401) as (-> & _). now exists msg.
    + intros H429.
      destruct (attempt_status_inv _ _ _ _ _ _ _ Hdb Hpost ltac:(lia) Hatt)
        as (kind & msg & -> & _ & _ & H & _).
      destruct (H H429) as (-> & _). now exists msg.
    + intros H200 H401 H429.
      destruct (attempt_status_inv _ _ _ _ _ _ _ Hdb Hpost H200 Hatt)
        as (kind & msg & -> & _ & _ & _ & H).
      destruct (H H401 H429) as (-> & ->). reflexivity.
  - intros e Hr.
    destruct (attempt_raised_inv _ _ _ _ _ _ _ Hr Hatt) as (-> & _).
    destruct (on_exception_kind c e) as (Ht & Hn & Ha).
    repeat split.
    + intros H. destruct (Ht H) as (msg & ->). now exists msg.
    + intros H. destruct (Hn H) as (msg & ->). now exists msg.
    + intros H1 H2. destruct (Ha H1 H2) as (msg & ->). now exists msg.
Qed.

Lemma stage_classification_witness :
  exists msg,
    value_of (try_openai_api Examples.unauthorized_world "hello"
                Examples.one_turn)
    = inr (Failure msg (Some "auth_error")).
Proof.
  destruct (stage_classification try_openai_api openai_consts
              (or_introl (conj eq_refl eq_refl))
              Examples.unauthorized_world "hello" Examples.one_turn)
    as (_ & H & _).
  destruct (H (Examples.response 401 "" (Py.JObj [])) eq_refl eq_refl)
    as (_ & H401 & _).
  exact (H401 eq_refl).
Defined.

(** C4 as stated fails: the response arrives with status 200, its body is
    not JSON, [resp.json()] raises an exception of the [RequestException]
    family, and [try_openai_api] returns a failure of kind
    [network_error]. That is neither the success the claim gives to status
    200 nor the [api_error] it gives to any other exception, and no
    transport failed. *)
Lemma status_200_read_as_network_error :
  (exists resp,
     requests_post MoreExamples.html_world (outbound Examples.one_turn)
       (stage_request openai_consts MoreExamples.html_world
          (table Examples.one_turn)) = inr resp
     /\ Http.status_code resp = 200)
  /\ value_of (try_openai_api MoreExamples.html_world "What is a tort?"
                 Examples.one_turn)
     = inr (Failure
              "OpenAI API network error: Expecting value: line 1 column 1 (char 0)"
              (Some "network_error"))
  /\ outbound (state_of (try_openai_api MoreExamples.html_world
                           "What is a tort?" Examples.one_turn))
     = [stage_request openai_consts MoreExamples.html_world
          (table Examples.one_turn)].
Proof.
  split; [eexists; split; reflexivity |].
  split; vm_compute; reflexivity.
Qed.

(* ===================================================================== *)
(** ** Signals on failure *)
(* ===================================================================== *)

(** C6, where the code departs from it. When the failure of
    [try_openai_api] or [try_openrouter_api] comes from an exception raised
    inside the attempt (kinds [timeout], [network_error], and [api_error]
    from an exception), the function returns the failure and sends no
    signal. *)
Theorem exception_failure_sends_no_signal f c :
  (f = try_openai_api /\ c = openai_consts)
  \/ (f = try_openrouter_api /\ c = openrouter_consts) ->
  forall env user_input st e,
    raised c env st e ->
    value_of (f env user_input st) = inr (on_exception c e)
    /\ get_success (on_exception c e) = false
    /\ signals_during (f env user_input) st = [].
Proof.
  intros Hf env user_input st e Hr.
  assert (Hshape : f env user_input = single_stage c env).
  { destruct Hf as [[-> ->] | [-> ->]]; reflexivity. }
  rewrite Hshape. clear Hshape Hf.
  destruct (single_stage_observed c env st)
    as (o & reqs & sigs & Hatt & Hv & _ & Hs & _).
  rewrite Hv, Hs.
  destruct (attempt_raised_inv _ _ _ _ _ _ _ Hr Hatt) as (-> & ->).
  repeat split.
  unfold on_exception.
  destruct (Py.is_Timeout e); [reflexivity |].
  destruct (Py.is_RequestException e); reflexivity.
Qed.

Lemma exception_failure_sends_no_signal_witness :
  value_of (try_openai_api Examples.timeout_world "hello" Examples.one_turn)
  = inr (Failure "OpenAI API request timed out. Please try again."
                 (Some "timeout"))
  /\ signals_during (try_openai_api Examples.timeout_world "hello")
       Examples.one_turn = [].
Proof.
  destruct (exception_failure_sends_no_signal try_openai_api openai_consts
              (or_introl (conj eq_refl eq_refl))
              Examples.timeout_world "hello" Examples.one_turn
              (Py.mk_exc Py.Timeout "Read timed out."))
    as (Hv & _ & Hs).
  - apply raised_by_post; reflexivity.
  - split; [exact Hv | exact Hs].
Defined.

(* ===================================================================== *)
(** ** The alternative stage *)
(* ===================================================================== *)

Lemma yields_nil env log n : yields env log [] n = None.
Proof. unfold yields. now destruct n. Qed.

Lemma yields_cons_0 env log q rest :
  yields env log (q :: rest) 0 = completion env log q.
Proof. unfold yields. simpl. now rewrite app_nil_r. Qed.

Lemma yields_cons_S env log q rest n :
  yields env log (q :: rest) (S n) = yields env (log ++ [q]) rest n.
Proof.
  unfold yields. simpl. destruct (nth_error rest n); [| reflexivity].
  now rewrite <- app_assoc.
Qed.

(** The loop returns the completion of the first request that yields one,
    having sent the requests up to that one; when none yields a completion
    it has sent them all and returns the plain failure. *)
Lemma loop_first_completion env rows models log o reqs :
  loop env rows models log o reqs ->
  (exists n reply_text,
      yields env log (map (model_request env rows) models) n = Some reply_text
      /\ (forall m, (m < n)%nat ->
                    yields env log (map (model_request env rows) models) m = None)
      /\ o = Success reply_text
      /\ reqs = firstn (S n) (map (model_request env rows) models))
  \/ ((forall n, yields env log (map (model_request env rows) models) n = None)
      /\ o = Failure "All OpenAI models failed" None
      /\ reqs = map (model_request env rows) models).
Proof.
  induction 1 as [log | model rest log r Hc | model rest log o reqs Hc Hl IH].
  - right. split; [apply yields_nil | now split].
  - left. exists 0%nat, r. cbn [map]. rewrite yields_cons_0.
    repeat split; [exact Hc | intros m Hm; lia].
  - cbn [map]. destruct IH as [(n & r & Hy & Hbefore & -> & ->) | (Hnone & -> & ->)].
    + left. exists (S n), r. rewrite yields_cons_S.
      repeat split; [exact Hy |].
      intros [| m] Hm; [now rewrite yields_cons_0 |].
      rewrite yields_cons_S. apply Hbefore. lia.
    + right. split; [| now split].
      intros [| n]; [now rewrite yields_cons_0 | rewrite yields_cons_S; apply Hnone].
Qed.

Lemma try_alternative_openai_api_observed env user_input st :
  exists o reqs,
    alternative env st o reqs
    /\ value_of (try_alternative_openai_api env user_input st) = inr o
    /\ requests_during (try_alternative_openai_api env user_input) st = reqs
    /\ signals_during (try_alternative_openai_api env user_input) st = []
    /\ returns_during (try_alternative_openai_api env user_input) st
       = [(Signals.Fn_try_alternative_openai_api, o)].
Proof.
  destruct (try_alternative_openai_api_run env user_input st)
    as (o & reqs & Hrun & Halt).
  exists o, reqs. split.
  - unfold alternative. exact Halt.
  - exact (observe_extend _ _ _ _ _ _ Hrun).
Qed.

(** C8. The alternative stage sends, in this order, one request per
    model of the list [gpt-3.5-turbo], [gpt-4], [gpt-4-turbo-preview] to
    the OpenAI endpoint, and returns a success at the first request that
    yields a completion: a response with status 200 read without an
    exception. A response with status 401 or 429 (or any other status than
    200) and any exception raised during a model's attempt, by the call
    or while the reply of a 200 response is read, yield none, and the loop
    goes on to the next model. When no request yields a completion the
    stage has sent them all and returns a failure without an
    [error_type]. It sends no signal. *)
Theorem alternative_stage env user_input st :
  db_fault env = None ->
  let reqs := map (model_request env (table st)) models_to_try in
  map endpoint_model reqs
  = [(openai_url, "gpt-3.5-turbo"); (openai_url, "gpt-4");
     (openai_url, "gpt-4-turbo-preview")]
  /\ (forall n reply_text,
         yields env (outbound st) reqs n = Some reply_text ->
         (forall m, (m < n)%nat -> yields env (outbound st) reqs m = None) ->
         value_of (try_alternative_openai_api env user_input st)
         = inr (Success reply_text)
         /\ requests_during (try_alternative_openai_api env user_input) st
            = firstn (S n) reqs)
  /\ ((forall n, yields env (outbound st) reqs n = None) ->
      value_of (try_alternative_openai_api env user_input st)
      = inr (Failure "All OpenAI models failed" None)
      /\ requests_during (try_alternative_openai_api env user_input) st = reqs)
  /\ signals_during (try_alternative_openai_api env user_input) st = []
  /\ (forall log q,
         match requests_post env log q with
         | inl _ => completion env log q = None
         | inr resp =>
             (Http.status_code resp <> 200 -> completion env log q = None)
             /\ (Http.status_code resp = 200 ->
                 completion env log q
                 = match first_choice_content env resp with
                   | inl _ => None
                   | inr reply_text => Some reply_text
                   end)
         end).
Proof.
  intros Hdb reqs.
  destruct (try_alternative_openai_api_observed env user_input st)
    as (o & sent_reqs & Halt & Hv & Hr & Hs & _).
  rewrite Hv, Hr, Hs. clear Hv Hr Hs.
  unfold alternative in Halt. rewrite Hdb in Halt.
  apply loop_first_completion in Halt. fold reqs in Halt.
  split; [reflexivity |]. split; [| split; [| split; [reflexivity |]]].
  - intros n reply_text Hy Hbefore.
    destruct Halt as [(n' & r' & Hy' & Hbefore' & -> & ->) | (Hnone & _)].
    + destruct (Nat.lt_trichotomy n n') as [Hlt | [-> | Hgt]].
      * rewrite (Hbefore' n Hlt) in Hy. discriminate.
      * rewrite Hy in Hy'. injection Hy' as <-. now split.
      * rewrite (Hbefore n' Hgt) in Hy'. discriminate.
    + rewrite Hnone in Hy. discriminate.
  - intros Hnone.
    destruct Halt as [(n' & r' & Hy' & _) | (_ & -> & ->)]; [| now split].
    rewrite Hnone in Hy'. discriminate.
  - intros log q. unfold completion.
    destruct (requests_post env log q) as [e | resp]; [reflexivity |].
    split.
    + intros Hne. destruct (Z.eqb_spec (Http.status_code resp) 200);
        [contradiction | reflexivity].
    + intros ->. reflexivity.
Qed.

Lemma alternative_stage_witness :
  db_fault Examples.second_model_world = None
  /\ value_of (try_alternative_openai_api Examples.second_model_world "hello"
                 Examples.one_turn)
     = inr (Success (Py.JStr "B")).
Proof.
  split; [reflexivity |].
  destruct (alternative_stage Examples.second_model_world "hello"
              Examples.one_turn eq_refl) as (_ & H & _).
  apply (H 1%nat (Py.JStr "B")).
  - reflexivity.
  - intros [| m] Hm; [reflexivity | lia].
Defined.

(* ===================================================================== *)
(** ** Which calls a dispatch makes *)
(* ===================================================================== *)

Lemma dispatch_keys env st o reqs sigs rets :
  dispatch env st o reqs sigs rets ->
  exists first n,
    (first = []
     \/ first = [(sc_url (first_consts env), sc_model (first_consts env))])
    /\ map endpoint_model reqs
       = (first ++ map (pair openai_url) (firstn n models_to_try))%list.
Proof.
  assert (Hone : forall o1 reqs1 sigs1,
             attempt (first_consts env) env st o1 reqs1 sigs1 ->
             map endpoint_model reqs1 = []
             \/ map endpoint_model reqs1
                = [(sc_url (first_consts env), sc_model (first_consts env))]).
  { intros o1 reqs1 sigs1 Hatt.
    destruct (attempt_requests _ _ _ _ _ _ Hatt) as [-> | ->]; [left | right];
      reflexivity. }
  assert (Halt : forall st' o2 reqs2,
             alternative env st' o2 reqs2 ->
             exists n, map endpoint_model reqs2
                       = map (pair openai_url) (firstn n models_to_try)).
  { intros st' o2 reqs2 Ha.
    destruct (alternative_requests _ _ _ _ Ha) as (n & ->).
    exists n. rewrite map_map. reflexivity. }
  intros Hd.
  destruct Hd as [Hk | o reqs sigs Hk Hatt Hs
                 | o1 reqs1 sigs1 o2 reqs2 Hk Hatt Hs1 Ha Hs2
                 | o1 reqs1 sigs1 o2 reqs2 Hk Hatt Hs1 Ha Hs2].
  - exists [], 0%nat. split; [now left | reflexivity].
  - exists (map endpoint_model reqs), 0%nat.
    split; [exact (Hone _ _ _ Hatt) | now rewrite app_nil_r].
  - destruct (Halt _ _ _ Ha) as (n & Hn).
    exists (map endpoint_model reqs1), n.
    split; [exact (Hone _ _ _ Hatt) | now rewrite map_app, Hn].
  - destruct (Halt _ _ _ Ha) as (n & Hn).
    exists (map endpoint_model reqs1), n.
    split; [exact (Hone _ _ _ Hatt) | now rewrite map_app, Hn].
Qed.

(** C9, as the code has it. The calls of one dispatch are pairwise
    distinct in (endpoint, model) when the credential starts with [sk-or-].
    Otherwise the only pair that can occur twice is the OpenAI endpoint
    with [gpt-3.5-turbo]: the OpenAI stage calls it, and the alternative
    stage calls it again as the first model of its list; no pair occurs
    three times and no other pair occurs twice. *)
Theorem repeats_only_first_model env user_input st :
  (key_startswith env "sk-or-" = true ->
   NoDup (map endpoint_model
            (requests_during (get_ai_response_external_only env user_input) st)))
  /\ (NoDup (map endpoint_model
               (requests_during (get_ai_response_external_only env user_input)
                  st))
      \/ exists rest,
           map endpoint_model
             (requests_during (get_ai_response_external_only env user_input) st)
           = (openai_url, "gpt-3.5-turbo") :: (openai_url, "gpt-3.5-turbo") :: rest
           /\ NoDup ((openai_url, "gpt-3.5-turbo") :: rest)).
Proof.
  destruct (dispatcher_run env user_input st)
    as (o & reqs & sigs & rets & Hrun & Hd).
  destruct (observe_extend _ _ _ _ _ _ Hrun) as (_ & Hr & _).
  rewrite Hr. clear Hrun Hr.
  destruct (dispatch_keys _ _ _ _ _ _ Hd) as (first & n & Hfirst & ->).
  unfold first_consts in Hfirst.
  destruct (key_startswith env "sk-or-");
    destruct Hfirst as [-> | ->];
    destruct n as [| [| [| [| n]]]]; cbn;
    (split;
     [ intros Hp; first [discriminate Hp | solve [distinct_keys]]
     | first [ left; solve [distinct_keys]
             | right; eexists; split; [reflexivity | solve [distinct_keys]] ] ]).
Qed.

(** C9 as stated fails: with a credential without the prefix and a peer
    that answers 500 to everything, the OpenAI stage and the first turn of
    the alternative stage send the same request. *)
Lemma same_call_twice :
  map endpoint_model
    (requests_during
       (get_ai_response_external_only Examples.down_world "hello")
       Examples.one_turn)
  = [(openai_url, "gpt-3.5-turbo"); (openai_url, "gpt-3.5-turbo");
     (openai_url, "gpt-4"); (openai_url, "gpt-4-turbo-preview")]
  /\ nth_error
       (requests_during
          (get_ai_response_external_only Examples.down_world "hello")
          Examples.one_turn) 0
     = nth_error
         (requests_during
            (get_ai_response_external_only Examples.down_world "hello")
            Examples.one_turn) 1
  /\ ~ NoDup (map endpoint_model
                (requests_during
                   (get_ai_response_external_only Examples.down_world "hello")
                   Examples.one_turn)).
Proof.
  split; [vm_compute; reflexivity |].
  split; [vm_compute; reflexivity |].
  intros H.
  assert (E : map endpoint_model
                (requests_during
                   (get_ai_response_external_only Examples.down_world "hello")
                   Examples.one_turn)
              = [(openai_url, "gpt-3.5-turbo"); (openai_url, "gpt-3.5-turbo");
                 (openai_url, "gpt-4"); (openai_url, "gpt-4-turbo-preview")])
    by (vm_compute; reflexivity).
  rewrite E in H. inversion H as [| x l Hnotin _]; subst.
  apply Hnotin. now left.
Qed.

(* ===================================================================== *)
(** ** What a request carries *)
(* ===================================================================== *)





Lemma message_pre_save_short s saved :
  message_pre_save (Py.JStr s) = inr saved ->
  (String.length s <= 5000)%nat ->
  saved = s.
Proof.
  unfold message_pre_save. intros H Hlen.
  destruct (negb (Py.truthy (Py.JStr s))); [discriminate |].
  destruct (Py.all_space s); [discriminate |].
  destruct (Nat.ltb_spec 5000 (String.length s)); [lia |].
  now injection H.
Qed.










(* ===================================================================== *)
(** ** More on the dispatcher: credentials, signals, bounds *)
(* ===================================================================== *)

Lemma on_exception_fails c e : get_success (on_exception c e) = false.
Proof.
  unfold on_exception.
  destruct (Py.is_Timeout e); [reflexivity |].
  destruct (Py.is_RequestException e); reflexivity.
Qed.

Lemma attempt_signals c env st o reqs sigs :
  attempt c env st o reqs sigs ->
  sigs = [] \/ exists kind msg, sigs = [notification c kind msg].
Proof. destruct 1; eauto. Qed.

Lemma attempt_no_completion c env st o reqs sigs :
  db_fault env = None ->
  completion env (outbound st) (stage_request c env (table st)) = None ->
  attempt c env st o reqs sigs ->
  get_success o = false /\ reqs = [stage_request c env (table st)].
Proof.
  intros Hdb Hc Hatt. unfold completion in Hc.
  destruct Hatt as [e He | e _ Hp | resp r _ Hp Hs Hb | resp e _ Hp Hs Hb
                   | resp _ Hp Hs | resp _ Hp Hs | resp _ Hp Hs _ _];
    try congruence; try (split; [apply on_exception_fails || reflexivity
                                | reflexivity]).
  rewrite Hp, Hs, Hb in Hc. discriminate Hc.
Qed.

Lemma dispatch_outcome env st o reqs sigs rets :
  dispatch env st o reqs sigs rets -> get_success o = true \/ o = all_failed.
Proof. destruct 1; auto. Qed.

Lemma stage_request_headers c env rows :
  Py.assoc "Authorization" (Http.headers (stage_request c env rows))
  = Some ("Bearer " ++ Py.str_opt (OPENAI_API_KEY env))
  /\ Py.assoc "Content-Type" (Http.headers (stage_request c env rows))
     = Some "application/json".
Proof. split; reflexivity. Qed.

Lemma dispatch_requests env st o reqs sigs rets :
  dispatch env st o reqs sigs rets ->
  forall q, In q reqs ->
    exists c, q = stage_request c env (table st)
              /\ (sc_url c = openai_url \/ sc_url c = openrouter_url).
Proof.
  assert (Hone : forall o1 reqs1 sigs1 q,
             attempt (first_consts env) env st o1 reqs1 sigs1 -> In q reqs1 ->
             exists c, q = stage_request c env (table st)
                       /\ (sc_url c = openai_url \/ sc_url c = openrouter_url)).
  { intros o1 reqs1 sigs1 q Hatt Hq.
    destruct (attempt_requests _ _ _ _ _ _ Hatt) as [-> | ->]; [destruct Hq |].
    destruct Hq as [<- | []]. exists (first_consts env). split; [reflexivity |].
    unfold first_consts. destruct (key_startswith env "sk-or-"); auto. }
  assert (Halt : forall st' o2 reqs2 q,
             table st' = table st ->
             alternative env st' o2 reqs2 -> In q reqs2 ->
             exists c, q = stage_request c env (table st)
                       /\ (sc_url c = openai_url \/ sc_url c = openrouter_url)).
  { intros st' o2 reqs2 q Ht Ha Hq.
    destruct (alternative_requests _ _ _ _ Ha) as (n & ->).
    apply in_map_iff in Hq. destruct Hq as (model & <- & _).
    rewrite Ht. eexists. split; [reflexivity | now left]. }
  intros Hd q Hq.
  destruct Hd as [Hk | o reqs sigs Hk Hatt Hs
                 | o1 reqs1 sigs1 o2 reqs2 Hk Hatt Hs1 Ha Hs2
                 | o1 reqs1 sigs1 o2 reqs2 Hk Hatt Hs1 Ha Hs2].
  - destruct Hq.
  - exact (Hone _ _ _ _ Hatt Hq).
  - apply in_app_or in Hq. destruct Hq as [Hq | Hq];
      [exact (Hone _ _ _ _ Hatt Hq)
      | eapply Halt; [| exact Ha | exact Hq]; reflexivity].
  - apply in_app_or in Hq. destruct Hq as [Hq | Hq];
      [exact (Hone _ _ _ _ Hatt Hq)
      | eapply Halt; [| exact Ha | exact Hq]; reflexivity].
Qed.

(** X1. Every request of a dispatch carries the configured key as bearer
    token and the JSON content type, whichever of the two endpoints it
    goes to. *)
Theorem bearer_on_every_request env user_input st key q :
  OPENAI_API_KEY env = Some key ->
  In q (requests_during (get_ai_response_external_only env user_input) st) ->
  Py.assoc "Authorization" (Http.headers q) = Some ("Bearer " ++ key)
  /\ Py.assoc "Content-Type" (Http.headers q) = Some "application/json"
  /\ (Http.url q = openai_url \/ Http.url q = openrouter_url).
Proof.
  intros Hkey Hq.
  destruct (dispatcher_run env user_input st)
    as (o & reqs & sigs & rets & Hrun & Hd).
  destruct (observe_extend _ _ _ _ _ _ Hrun) as (_ & Hr & _).
  rewrite Hr in Hq.
  destruct (dispatch_requests _ _ _ _ _ _ Hd q Hq) as (c & -> & Hurl).
  destruct (stage_request_headers c env (table st)) as (Ha & Hc).
  rewrite Ha, Hc, Hkey. repeat split. exact Hurl.
Qed.

Lemma bearer_on_every_request_witness :
  Forall
    (fun q => Py.assoc "Authorization" (Http.headers q) = Some "Bearer sk-test123")
    (requests_during
       (get_ai_response_external_only Examples.down_world "hello")
       Examples.one_turn).
Proof.
  apply Forall_forall. intros q Hq.
  apply (bearer_on_every_request Examples.down_world "hello" Examples.one_turn
           "sk-test123" q eq_refl Hq).
Defined.

(** X2. When the OpenRouter stage yields no completion for a key that
    starts with [sk-or-], the second request of the dispatch goes to the
    OpenAI endpoint for [gpt-3.5-turbo] and carries that same key. *)
Theorem router_key_sent_to_openai env user_input st key :
  OPENAI_API_KEY env = Some key ->
  key <> "" ->
  prefix "sk-or-" key = true ->
  db_fault env = None ->
  completion env (outbound st) (stage_request openrouter_consts env (table st))
  = None ->
  exists q,
    nth_error (requests_during (get_ai_response_external_only env user_input) st) 1
    = Some q
    /\ endpoint_model q = (openai_url, "gpt-3.5-turbo")
    /\ Py.assoc "Authorization" (Http.headers q) = Some ("Bearer " ++ key).
Proof.
  intros Hkey Hne Hpre Hdb Hc.
  pose proof (truthy_opt_some env key Hkey Hne) as Htruthy.
  assert (Hfirst : first_consts env = openrouter_consts).
  { unfold first_consts. now rewrite (key_startswith_some env key _ Hkey), Hpre. }
  destruct (dispatcher_run env user_input st)
    as (o & reqs & sigs & rets & Hrun & Hd).
  destruct (observe_extend _ _ _ _ _ _ Hrun) as (_ & Hr & _).
  rewrite Hr. clear Hrun Hr.
  assert (Hgoal : forall o1 reqs1 sigs1 o2 reqs2,
             attempt (first_consts env) env st o1 reqs1 sigs1 ->
             alternative env
               (extend st reqs1 sigs1 [(sc_fn (first_consts env), o1)]) o2 reqs2 ->
             exists q,
               nth_error (reqs1 ++ reqs2) 1 = Some q
               /\ endpoint_model q = (openai_url, "gpt-3.5-turbo")
               /\ Py.assoc "Authorization" (Http.headers q)
                  = Some ("Bearer " ++ key)).
  { intros o1 reqs1 sigs1 o2 reqs2 Hatt Ha. rewrite Hfirst in *.
    destruct (attempt_no_completion _ _ _ _ _ _ Hdb Hc Hatt) as (_ & ->).
    unfold alternative in Ha. rewrite Hdb in Ha.
    exists (model_request env (table st) "gpt-3.5-turbo").
    split; [| split; [reflexivity | cbn; now rewrite Hkey]].
    inversion Ha; reflexivity. }
  destruct Hd as [Hk | o reqs sigs Hk Hatt Hs
                 | o1 reqs1 sigs1 o2 reqs2 Hk Hatt Hs1 Ha Hs2
                 | o1 reqs1 sigs1 o2 reqs2 Hk Hatt Hs1 Ha Hs2];
    try congruence; try exact (Hgoal _ _ _ _ _ Hatt Ha).
  rewrite Hfirst in Hatt.
  destruct (attempt_no_completion _ _ _ _ _ _ Hdb Hc Hatt) as (Hf & _).
  congruence.
Qed.

Lemma router_key_sent_to_openai_witness :
  exists q,
    nth_error
      (requests_during
         (get_ai_response_external_only MoreExamples.router_key_world "hello")
         Examples.one_turn) 1 = Some q
    /\ endpoint_model q = (openai_url, "gpt-3.5-turbo")
    /\ Py.assoc "Authorization" (Http.headers q) = Some "Bearer sk-or-abc".
Proof.
  apply (router_key_sent_to_openai MoreExamples.router_key_world "hello"
           Examples.one_turn "sk-or-abc"); try reflexivity.
  discriminate.
Defined.

(** X3. A response with a status other than 200 makes [try_openai_api]
    and [try_openrouter_api] send exactly one signal, and the signal
    carries the kind and the message of the failure returned. *)
Theorem status_failure_sends_one_signal f c :
  (f = try_openai_api /\ c = openai_consts)
  \/ (f = try_openrouter_api /\ c = openrouter_consts) ->
  forall env user_input st resp,
    db_fault env = None ->
    requests_post env (outbound st) (stage_request c env (table st)) = inr resp ->
    Http.status_code resp <> 200 ->
    exists kind msg,
      value_of (f env user_input st) = inr (Failure msg (Some kind))
      /\ signals_during (f env user_input) st
         = [{| Signals.sent_by := sc_fn c;
               Signals.error_type := kind;
               Signals.error_message := msg |}].
Proof.
  intros Hf env user_input st resp Hdb Hpost Hne.
  assert (Hshape : f env user_input = single_stage c env).
  { destruct Hf as [[-> ->] | [-> ->]]; reflexivity. }
  rewrite Hshape. clear Hshape Hf.
  destruct (single_stage_observed c env st)
    as (o & reqs & sigs & Hatt & Hv & _ & Hs & _).
  rewrite Hv, Hs.
  destruct (attempt_status_inv _ _ _ _ _ _ _ Hdb Hpost Hne Hatt)
    as (kind & msg & -> & -> & _).
  now exists kind, msg.
Qed.

Lemma status_failure_sends_one_signal_witness :
  exists kind msg,
    value_of (try_openai_api Examples.unauthorized_world "hello"
                Examples.one_turn)
    = inr (Failure msg (Some kind))
    /\ signals_during (try_openai_api Examples.unauthorized_world "hello")
         Examples.one_turn
       = [{| Signals.sent_by := Signals.Fn_try_openai_api;
             Signals.error_type := kind;
             Signals.error_message := msg |}].
Proof.
  apply (status_failure_sends_one_signal try_openai_api openai_consts
           (or_introl (conj eq_refl eq_refl))
           Examples.unauthorized_world "hello" Examples.one_turn
           (Examples.response 401 "" (Py.JObj [])) eq_refl eq_refl).
  discriminate.
Defined.

(** X4. A dispatch sends the [all_apis_failed] signal exactly when it
    returns a failure, and then as its last signal; it sends at most two
    signals in all. *)
Theorem give_up_signal env user_input st :
  exists o,
    value_of (get_ai_response_external_only env user_input st) = inr o
    /\ (get_success o = false <->
        In all_failed_notification
          (signals_during (get_ai_response_external_only env user_input) st))
    /\ (get_success o = false ->
        exists earlier,
          signals_during (get_ai_response_external_only env user_input) st
          = (earlier ++ [all_failed_notification])%list)
    /\ (length (signals_during (get_ai_response_external_only env user_input) st)
        <= 2)%nat.
Proof.
  destruct (dispatcher_run env user_input st)
    as (o & reqs & sigs & rets & Hrun & Hd).
  destruct (observe_extend _ _ _ _ _ _ Hrun) as (Hv & _ & Hs & _).
  rewrite Hv, Hs. clear Hrun Hv Hs. exists o. split; [reflexivity |].
  assert (Hone : forall o1 reqs1 sigs1,
             attempt (first_consts env) env st o1 reqs1 sigs1 ->
             ~ In all_failed_notification sigs1 /\ (length sigs1 <= 1)%nat).
  { intros o1 reqs1 sigs1 Hatt.
    destruct (attempt_signals _ _ _ _ _ _ Hatt) as [-> | (kind & msg & ->)].
    - split; [intros [] | simpl; lia].
    - split; [| simpl; lia]. intros [H | []].
      unfold notification, all_failed_notification, first_consts in H.
      destruct (key_startswith env "sk-or-"); discriminate H. }
  destruct Hd as [Hk | o reqs sigs Hk Hatt Hs
                 | o1 reqs1 sigs1 o2 reqs2 Hk Hatt Hs1 Ha Hs2
                 | o1 reqs1 sigs1 o2 reqs2 Hk Hatt Hs1 Ha Hs2].
  - repeat split; try (now left); try (simpl; lia).
    intros _. now exists [].
  - destruct (Hone _ _ _ Hatt) as (Hnot & Hlen).
    repeat split; try congruence; try lia; intros; contradiction.
  - destruct (Hone _ _ _ Hatt) as (Hnot & Hlen).
    repeat split; try congruence; try lia; intros; contradiction.
  - destruct (Hone _ _ _ Hatt) as (Hnot & Hlen).
    repeat split.
    + intros _. apply in_or_app. right. now left.
    + intros _. now exists sigs1.
    + rewrite length_app. simpl. lia.
Qed.

(** X5. A dispatch never writes to the message table and sends at most
    four requests. *)
Theorem dispatch_bounds env user_input st :
  table (state_of (get_ai_response_external_only env user_input st)) = table st
  /\ next_id (state_of (get_ai_response_external_only env user_input st))
     = next_id st
  /\ (length (requests_during (get_ai_response_external_only env user_input) st)
      <= 4)%nat.
Proof.
  destruct (dispatcher_run env user_input st)
    as (o & reqs & sigs & rets & Hrun & Hd).
  destruct (observe_extend _ _ _ _ _ _ Hrun) as (_ & Hr & _).
  rewrite Hr. unfold state_of. rewrite Hrun. repeat split.
  destruct (dispatch_keys _ _ _ _ _ _ Hd) as (first & n & Hfirst & Hkeys).
  apply (f_equal (@length _)) in Hkeys.
  rewrite length_map, length_app, length_map, length_firstn in Hkeys.
  rewrite Hkeys.
  assert (length first <= 1)%nat by (destruct Hfirst as [-> | ->]; simpl; lia).
  assert (Nat.min n (length models_to_try) <= 3)%nat
    by (change (length models_to_try) with 3%nat; lia).
  lia.
Qed.

(* ===================================================================== *)
(** ** Reading the reply *)
(* ===================================================================== *)

(** X6. The reply is read from a response exactly when its body decodes
    to an object whose ["choices"] is a list whose first element is an
    object whose ["message"] is an object with a ["content"]; the reply
    is that content, further keys and choices are ignored. *)
Theorem first_choice_content_spec env resp reply_text :
  first_choice_content env resp = inr reply_text <->
  exists entries choice more message,
    Http.json_body resp = inr (Py.JObj entries)
    /\ Py.assoc "choices" entries = Some (Py.JArr (Py.JObj choice :: more))
    /\ Py.assoc "message" choice = Some (Py.JObj message)
    /\ Py.assoc "content" message = Some reply_text.
Proof.
  unfold first_choice_content, Py.rbind. split.
  - destruct (Http.json_body resp) as [e | body]; [discriminate |].
    destruct body as [| | | | | | entries]; try discriminate.
    cbn [Py.getitem_key].
    destruct (Py.assoc "choices" entries) as [choices |] eqn:Hc; [| discriminate].
    destruct choices as [| | | | s | items |]; try discriminate.
    { destruct s; discriminate. }
    destruct items as [| first more]; [discriminate |].
    cbn [Py.getitem_0].
    destruct first as [| | | | | | choice]; try discriminate.
    cbn [Py.getitem_key].
    destruct (Py.assoc "message" choice) as [m |] eqn:Hm; [| discriminate].
    destruct m as [| | | | | | message]; try discriminate.
    cbn [Py.getitem_key].
    destruct (Py.assoc "content" message) as [v |] eqn:Hv; [| discriminate].
    intros H. injection H as <-.
    now exists entries, choice, more, message.
  - intros (entries & choice & more & message & -> & Hc & Hm & Hv).
    cbn [Py.getitem_key]. rewrite Hc. cbn [Py.getitem_0 Py.getitem_key].
    rewrite Hm. cbn [Py.getitem_key]. now rewrite Hv.
Qed.

(* ===================================================================== *)
(** ** What [chat_api] answers and saves *)
(* ===================================================================== *)

(** Only a string is accepted. *)
Lemma message_pre_save_is_str content saved :
  message_pre_save content = inr saved -> exists s, content = Py.JStr s.
Proof.
  unfold message_pre_save.
  destruct (negb (Py.truthy content)); [discriminate |].
  destruct content; try discriminate. eauto.
Qed.

Lemma create_run env role content st :
  Message_objects_create env role content st
  = match message_pre_save content with
    | inl e => (inl e, st)
    | inr c =>
        match db_fault env with
        | Some e => (inl e, st)
        | None =>
            (inr {| Models.id := next_id st; Models.role := role;
                    Models.content := c |},
             add_row {| Models.id := next_id st; Models.role := role;
                        Models.content := c |} st)
        end
    end.
Proof. reflexivity. Qed.

(** [chat_api] past the two guards, step by step. *)
Lemma chat_api_run env request_data user_input st :
  validated_message env request_data = Some user_input ->
  Py.truthy_opt (OPENAI_API_KEY env) = true ->
  chat_api env request_data st
  = match Message_objects_create env "user" (Py.JStr user_input) st with
    | (inl e, st1) => (inl e, st1)
    | (inr _, st1) =>
        match get_ai_response_external_only env user_input st1 with
        | (inl e, st2) => (inl e, st2)
        | (inr (Success response), st2) =>
            match Message_objects_create env "assistant" response st2 with
            | (inl e, st3) => (inl e, st3)
            | (inr assistant_message, st3) =>
                (inr {| data := [("response", response);
                                 ("message_id",
                                  Py.JInt (Models.id assistant_message))];
                        status := 200 |}, st3)
            end
        | (inr (Failure error error_type), st2) =>
            match Message_objects_create env "assistant" (Py.JStr error) st2 with
            | (inl e, st3) => (inl e, st3)
            | (inr _, st3) =>
                (inr {| data :=
                          [("error", Py.JStr error);
                           ("error_type",
                            Py.JStr match error_type with
                                    | Some t => t
                                    | None => "api_error"
                                    end)];
                        status := 500 |}, st3)
            end
        end
    end.
Proof.
  intros Hvalid Hkey. unfold chat_api. rewrite Hvalid, Hkey. cbn [negb].
  unfold bind at 1.
  destruct (Message_objects_create env "user" (Py.JStr user_input) st)
    as [[e | m] st1]; [reflexivity |].
  unfold bind at 1.
  destruct (get_ai_response_external_only env user_input st1)
    as [[e | [response | error error_type]] st2]; [reflexivity | |];
    unfold bind, ret;
    match goal with
    | |- context [Message_objects_create env ?r ?c ?s] =>
        destruct (Message_objects_create env r c s) as [[e | m'] st3]
    end; reflexivity.
Qed.

Lemma all_failed_msg_saved :
  message_pre_save (Py.JStr all_failed_msg) = inr all_failed_msg.
Proof. vm_compute. reflexivity. Qed.

(** X7. Whatever [chat_api] answers has one of four shapes: 400 for
    invalid data, 500 with [configuration_error] without a key, 200 with
    the reply and the id of the saved assistant turn, or 500 with the
    fixed [all_apis_failed] message. The kinds the stages assign
    ([auth_error], [rate_limit], [timeout], [network_error], [api_error])
    never reach the client. *)
Theorem chat_api_answers env request_data st resp st' :
  chat_api env request_data st = (inr resp, st') ->
  (status resp = 400
   /\ data resp = [("error", Py.JStr "Invalid request data");
                   ("error_type", Py.JStr "validation_error")])
  \/ (status resp = 500
      /\ data resp
         = [("error",
             Py.JStr "OpenAI API key is not configured. Please set the OPENAI_API_KEY environment variable.");
            ("error_type", Py.JStr "configuration_error")])
  \/ (status resp = 200
      /\ exists reply,
           data resp = [("response", Py.JStr reply);
                        ("message_id", Py.JInt (next_id st + 1))])
  \/ (status resp = 500
      /\ data resp = [("error", Py.JStr all_failed_msg);
                      ("error_type", Py.JStr "all_apis_failed")]).
Proof.
  intros Hrun.
  destruct (validated_message env request_data) as [user_input |] eqn:Hvalid.
  2:{ unfold chat_api in Hrun. rewrite Hvalid in Hrun.
      injection Hrun as <- _. left. now split. }
  destruct (Py.truthy_opt (OPENAI_API_KEY env)) eqn:Hkey.
  2:{ unfold chat_api in Hrun. rewrite Hvalid, Hkey in Hrun.
      injection Hrun as <- _. right. left. now split. }
  rewrite (chat_api_run _ _ _ _ Hvalid Hkey), create_run in Hrun.
  destruct (message_pre_save (Py.JStr user_input)) as [e | saved];
    [discriminate |].
  destruct (db_fault env) as [e |] eqn:Hdb; [discriminate |].
  set (st1 := add_row _ st) in Hrun.
  destruct (dispatcher_run env user_input st1)
    as (o & reqs & sigs & rets & Hd_run & Hd).
  rewrite Hd_run in Hrun.
  destruct (dispatch_outcome _ _ _ _ _ _ Hd) as [Hs | ->].
  - destruct o as [response | error error_type]; [| discriminate Hs].
    rewrite create_run, Hdb in Hrun.
    destruct (message_pre_save response) as [e | c] eqn:Hsave;
      [discriminate |].
    destruct (message_pre_save_is_str _ _ Hsave) as (reply & ->).
    injection Hrun as <- _. right. right. left.
    split; [reflexivity | now exists reply].
  - unfold all_failed in Hrun.
    rewrite create_run, all_failed_msg_saved, Hdb in Hrun.
    injection Hrun as <- _. right. right. right. now split.
Qed.

Lemma chat_api_answers_witness :
  exists resp st',
    chat_api Examples.down_world (Examples.message_body "hello")
      Examples.one_turn = (inr resp, st')
    /\ status resp = 500.
Proof.
  eexists _, _. split; [vm_compute; reflexivity |].
  match goal with
  | |- status ?r = 500 =>
      destruct (chat_api_answers Examples.down_world
                  (Examples.message_body "hello") Examples.one_turn r _
                  ltac:(vm_compute; reflexivity))
        as [(H & _) | [(H & _) | [(H & _) | (H & _)]]]
  end; try exact H; vm_compute in H; discriminate H.
Defined.

(** X8. A [chat_api] call that gets past the two guards and answers has
    added exactly two rows, in this order: the user turn and the assistant
    turn. The assistant turn holds the reply as [message_pre_save] left it
    when the answer is 200, and the fixed [all_apis_failed] message when
    the answer is 500. *)
Theorem chat_api_saves_two_turns env request_data user_input st resp st' :
  validated_message env request_data = Some user_input ->
  Py.truthy_opt (OPENAI_API_KEY env) = true ->
  chat_api env request_data st = (inr resp, st') ->
  exists saved answer,
    message_pre_save (Py.JStr user_input) = inr saved
    /\ table st'
       = (table st
          ++ [{| Models.id := next_id st; Models.role := "user";
                 Models.content := saved |};
              {| Models.id := next_id st + 1; Models.role := "assistant";
                 Models.content := answer |}])%list
    /\ next_id st' = next_id st + 2
    /\ (status resp = 500 -> answer = all_failed_msg)
    /\ (status resp = 200 ->
        exists reply,
          data resp = [("response", Py.JStr reply);
                       ("message_id", Py.JInt (next_id st + 1))]
          /\ message_pre_save (Py.JStr reply) = inr answer).
Proof.
  intros Hvalid Hkey Hrun.
  rewrite (chat_api_run _ _ _ _ Hvalid Hkey), create_run in Hrun.
  destruct (message_pre_save (Py.JStr user_input)) as [e | saved];
    [discriminate |].
  destruct (db_fault env) as [e |] eqn:Hdb; [discriminate |].
  set (st1 := add_row _ st) in Hrun.
  destruct (dispatcher_run env user_input st1)
    as (o & reqs & sigs & rets & Hd_run & Hd).
  rewrite Hd_run in Hrun.
  destruct (dispatch_outcome _ _ _ _ _ _ Hd) as [Hs | ->].
  - destruct o as [response | error error_type]; [| discriminate Hs].
    rewrite create_run, Hdb in Hrun.
    destruct (message_pre_save response) as [e | c] eqn:Hsave;
      [discriminate |].
    destruct (message_pre_save_is_str _ _ Hsave) as (reply & ->).
    injection Hrun as <- <-. exists saved, c.
    split; [reflexivity |]. cbn. rewrite <- app_assoc.
    repeat split; try lia; try discriminate.
    intros _. now exists reply.
  - unfold all_failed in Hrun.
    rewrite create_run, all_failed_msg_saved, Hdb in Hrun.
    injection Hrun as <- <-. exists saved, all_failed_msg.
    split; [reflexivity |]. cbn. rewrite <- app_assoc.
    repeat split; try lia; try discriminate.
Qed.

Lemma chat_api_saves_two_turns_witness :
  exists resp st',
    chat_api Examples.tort_world (Examples.message_body "And a contract?")
      Examples.one_turn = (inr resp, st')
    /\ length (table st') = 3%nat.
Proof.
  eexists _, _. split; [vm_compute; reflexivity |].
  match goal with
  | |- length (table ?s) = _ =>
      destruct (chat_api_saves_two_turns Examples.tort_world
                  (Examples.message_body "And a contract?") "And a contract?"
                  Examples.one_turn _ s eq_refl eq_refl
                  ltac:(vm_compute; reflexivity))
        as (saved & answer & _ & Ht & _)
  end.
  rewrite Ht, length_app. reflexivity.
Defined.

(** X9. When the dispatcher succeeds with a reply that [message_pre_save]
    rejects (JSON [null], an empty or blank string, or a value that is not
    a string), [chat_api] raises that exception instead of answering; the
    user turn has been saved, no assistant turn has. *)
Theorem chat_api_unsaveable_reply env request_data user_input st saved reply e :
  validated_message env request_data = Some user_input ->
  Py.truthy_opt (OPENAI_API_KEY env) = true ->
  db_fault env = None ->
  message_pre_save (Py.JStr user_input) = inr saved ->
  value_of (get_ai_response_external_only env user_input
              (add_row {| Models.id := next_id st; Models.role := "user";
                          Models.content := saved |} st))
  = inr (Success reply) ->
  message_pre_save reply = inl e ->
  value_of (chat_api env request_data st) = inl e
  /\ table (state_of (chat_api env request_data st))
     = (table st ++ [{| Models.id := next_id st; Models.role := "user";
                        Models.content := saved |}])%list.
Proof.
  intros Hvalid Hkey Hdb Hsaved Hdisp Hreply.
  rewrite (chat_api_run _ _ _ _ Hvalid Hkey), create_run, Hsaved, Hdb.
  set (st1 := add_row _ st) in *.
  destruct (dispatcher_run env user_input st1)
    as (o & reqs & sigs & rets & Hd_run & _).
  rewrite Hd_run in Hdisp |- *. unfold value_of in Hdisp. simpl in Hdisp.
  injection Hdisp as ->.
  rewrite create_run, Hreply. split; reflexivity.
Qed.

Lemma chat_api_unsaveable_reply_witness :
  value_of (chat_api MoreExamples.null_world (Examples.message_body "hello")
              Examples.one_turn)
  = inl (Py.mk_exc Py.ValueError "Message content cannot be empty").
Proof.
  apply (chat_api_unsaveable_reply MoreExamples.null_world
           (Examples.message_body "hello") "hello" Examples.one_turn "hello"
           Py.JNull);
    vm_compute; reflexivity.
Defined.

(* ===================================================================== *)
(** ** What [message_pre_save] lets through *)
(* ===================================================================== *)

Lemma length_append (a b : string) :
  String.length (a ++ b) = (String.length a + String.length b)%nat.
Proof. induction a as [| c a IH]; simpl; [reflexivity | now rewrite IH]. Qed.

Lemma length_substring_0 n : forall s,
  String.length (substring 0 n s) = Nat.min n (String.length s).
Proof.
  induction n as [| n IH]; intros s.
  - now destruct s.
  - destruct s as [| c s]; [reflexivity |].
    cbn [substring String.length Nat.min]. now rewrite IH.
Qed.

Lemma all_space_append (a b : string) :
  Py.all_space (a ++ b) = Py.all_space a && Py.all_space b.
Proof.
  induction a as [| c a IH]; simpl; [reflexivity |].
  rewrite IH. now rewrite andb_assoc.
Qed.

Lemma all_space_empty_string s : s = "" -> Py.all_space s = true.
Proof. now intros ->. Qed.

Lemma message_pre_save_ok content saved :
  message_pre_save content = inr saved ->
  Py.all_space saved = false /\ (String.length saved <= 5000)%nat.
Proof.
  intros H.
  destruct (message_pre_save_is_str _ _ H) as (s & ->).
  unfold message_pre_save in H.
  destruct (negb (Py.truthy (Py.JStr s))); [discriminate |].
  destruct (Py.all_space s) eqn:Hblank; [discriminate |].
  destruct (Nat.ltb_spec 5000 (String.length s)) as [Hlong | Hshort];
    injection H as <-.
  - split; [rewrite all_space_append; apply andb_false_r |].
    rewrite length_append, length_substring_0.
    change (String.length "...") with 3%nat. lia.
  - now split.
Qed.

(** X10. Content that [message_pre_save] accepts is never blank and is at
    most 5000 characters long: content of up to 5000 characters is kept as
    it is, longer content becomes its first 4997 characters followed by
    three dots, exactly 5000 characters. *)
Theorem message_pre_save_bound content saved :
  message_pre_save content = inr saved ->
  exists s,
    content = Py.JStr s
    /\ Py.all_space saved = false
    /\ (String.length saved <= 5000)%nat
    /\ ((String.length s <= 5000)%nat -> saved = s)
    /\ ((5000 < String.length s)%nat ->
        saved = substring 0 4997 s ++ "..."
        /\ String.length saved = 5000%nat).
Proof.
  intros H.
  destruct (message_pre_save_ok _ _ H) as (Hblank & Hlen).
  destruct (message_pre_save_is_str _ _ H) as (s & ->). exists s.
  split; [reflexivity |]. split; [exact Hblank |]. split; [exact Hlen |].
  split; [exact (message_pre_save_short _ _ H) |].
  intros Hlong. unfold message_pre_save in H.
  destruct (negb (Py.truthy (Py.JStr s))); [discriminate |].
  destruct (Py.all_space s); [discriminate |].
  destruct (Nat.ltb_spec 5000 (String.length s)); [| lia].
  injection H as <-. split; [reflexivity |].
  rewrite length_append, length_substring_0.
  change (String.length "...") with 3%nat. lia.
Qed.

Lemma message_pre_save_bound_witness :
  exists s,
    Py.JStr "What is a tort?" = Py.JStr s
    /\ Py.all_space "What is a tort?" = false.
Proof.
  destruct (message_pre_save_bound (Py.JStr "What is a tort?")
              "What is a tort?") as (s & Hs & Hb & _).
  - vm_compute. reflexivity.
  - exists s. now split.
Defined.

(** X11. Saving again what was saved changes nothing: content that
    [message_pre_save] returned is accepted by it unchanged. *)
Theorem message_pre_save_idempotent content saved :
  message_pre_save content = inr saved ->
  message_pre_save (Py.JStr saved) = inr saved.
Proof.
  intros H.
  destruct (message_pre_save_ok _ _ H) as (Hblank & Hlen).
  unfold message_pre_save.
  assert (Hne : Py.truthy (Py.JStr saved) = true).
  { simpl. destruct (String.eqb_spec saved ""); [| reflexivity].
    rewrite (all_space_empty_string _ e) in Hblank. discriminate. }
  rewrite Hne, Hblank. cbn [negb].
  destruct (Nat.ltb_spec 5000 (String.length saved)); [lia | reflexivity].
Qed.

Lemma message_pre_save_idempotent_witness :
  message_pre_save (Py.JStr "What is a tort?") = inr "What is a tort?".
Proof.
  apply (message_pre_save_idempotent (Py.JStr "What is a tort?")).
  vm_compute. reflexivity.
Defined.

(* ===================================================================== *)
(** ** The web view *)
(* ===================================================================== *)

Lemma lstrip_blank s : Py.all_space s = true -> PyStr.lstrip s = "".
Proof.
  induction s as [| c s IH]; simpl; [reflexivity |].
  destruct (Py.isspace c); [exact IH | discriminate].
Qed.

Lemma lstrip_head s :
  PyStr.lstrip s = ""
  \/ exists c rest, PyStr.lstrip s = String c rest /\ Py.isspace c = false.
Proof.
  induction s as [| c s IH]; simpl; [now left |].
  destruct (Py.isspace c) eqn:Hc; [exact IH |].
  right. now exists c, s.
Qed.

Lemma rstrip_head c rest :
  Py.isspace c = false ->
  PyStr.rstrip (String c rest) = String c (PyStr.rstrip rest).
Proof. intros Hc. simpl. rewrite Hc. now rewrite andb_false_r. Qed.

Lemma strip_blank s : Py.all_space s = true -> PyStr.strip s = "".
Proof. intros H. unfold PyStr.strip. now rewrite (lstrip_blank s H). Qed.

Lemma strip_head s :
  PyStr.strip s = ""
  \/ exists c rest, PyStr.strip s = String c rest /\ Py.isspace c = false.
Proof.
  unfold PyStr.strip.
  destruct (lstrip_head s) as [-> | (c & rest & -> & Hc)]; [now left |].
  right. exists c, (PyStr.rstrip rest). split; [now apply rstrip_head | exact Hc].
Qed.

Lemma rstrip_length s : (String.length (PyStr.rstrip s) <= String.length s)%nat.
Proof.
  induction s as [| c s IH]; simpl; [lia |].
  destruct ((PyStr.rstrip s =? "")%string && Py.isspace c); simpl; lia.
Qed.

Lemma lstrip_length s : (String.length (PyStr.lstrip s) <= String.length s)%nat.
Proof.
  induction s as [| c s IH]; simpl; [lia |].
  destruct (Py.isspace c); simpl; lia.
Qed.

Lemma strip_accepted text :
  PyStr.strip text <> "" ->
  exists saved, message_pre_save (Py.JStr (PyStr.strip text)) = inr saved.
Proof.
  intros Hne.
  destruct (strip_head text) as [H | (c & rest & H & Hc)]; [contradiction |].
  unfold message_pre_save. rewrite H.
  cbn [Py.truthy String.eqb negb Py.all_space]. rewrite Hc. cbn [andb].
  destruct (5000 <? String.length (String c rest))%nat; eexists; reflexivity.
Qed.

(** X12. The text [chat_view] takes from the form, stripped, is either
    empty or accepted by [message_pre_save]: it starts with a character
    that is not whitespace, so the user turn is never refused as blank,
    and it is saved unchanged when the text sent has at most 5000
    characters. *)
Theorem stripped_input_is_saved text :
  PyStr.strip text <> "" ->
  exists saved,
    message_pre_save (Py.JStr (PyStr.strip text)) = inr saved
    /\ ((String.length text <= 5000)%nat -> saved = PyStr.strip text).
Proof.
  intros Hne.
  destruct (strip_accepted text Hne) as (saved & Hsaved).
  exists saved. split; [exact Hsaved |].
  intros Hshort. apply (message_pre_save_short _ _ Hsaved).
  unfold PyStr.strip.
  pose proof (rstrip_length (PyStr.lstrip text)).
  pose proof (lstrip_length text). lia.
Qed.

Lemma stripped_input_is_saved_witness :
  exists saved,
    message_pre_save (Py.JStr (PyStr.strip "  What is a tort?  ")) = inr saved
    /\ ((String.length "  What is a tort?  " <= 5000)%nat ->
        saved = PyStr.strip "  What is a tort?  ").
Proof.
  apply (stripped_input_is_saved "  What is a tort?  ").
  vm_compute. discriminate.
Defined.

(** [chat_view] for a request that is not a [POST], and for a [POST], step
    by step. *)
Lemma chat_view_get env request st :
  (method request =? "POST")%string = false ->
  chat_view env request st
  = match db_fault env with
    | Some e => (inl e, st)
    | None => (inr (Render "index.html" (table st)), st)
    end.
Proof.
  intros Hm. unfold chat_view. rewrite Hm.
  unfold bind, Message_objects_all, ret. now destruct (db_fault env).
Qed.

Lemma chat_view_post env request st :
  (method request =? "POST")%string = true ->
  chat_view env request st
  = let user_input :=
      PyStr.strip match Py.assoc "message" (POST request) with
                  | Some v => v
                  | None => ""
                  end in
    if (user_input =? "")%string then no_message request st
    else
      match Message_objects_create env "user" (Py.JStr user_input) st with
      | (inl e, st1) => (inl e, st1)
      | (inr _, st1) =>
          if Py.truthy_opt (OPENAI_API_KEY env) then
            match get_ai_response_external_only env user_input st1 with
            | (inl e, st2) => (inl e, st2)
            | (inr (Success response), st2) =>
                match Message_objects_create env "assistant" response st2 with
                | (inl e, st3) => (inl e, st3)
                | (inr assistant_message, st3) =>
                    (inr (if is_ajax request
                          then JsonResponse
                                 [("response", response);
                                  ("message_id",
                                   Py.JInt (Models.id assistant_message))] 200
                          else Redirect "chat"), st3)
                end
            | (inr (Failure error error_type), st2) =>
                match Message_objects_create env "assistant" (Py.JStr error) st2
                with
                | (inl e, st3) => (inl e, st3)
                | (inr _, st3) =>
                    (inr (if is_ajax request
                          then JsonResponse
                                 [("error", Py.JStr error);
                                  ("error_type",
                                   Py.JStr match error_type with
                                           | Some t => t
                                           | None => "api_error"
                                           end)] 200
                          else Redirect "chat"), st3)
                end
            end
          else
            match Message_objects_create env "assistant"
                    (Py.JStr "OpenAI API key is not configured. Please set the OPENAI_API_KEY environment variable.")
                    st1
            with
            | (inl e, st2) => (inl e, st2)
            | (inr _, st2) =>
                (inr (if is_ajax request
                      then JsonResponse
                             [("error",
                               Py.JStr "OpenAI API key is not configured. Please set the OPENAI_API_KEY environment variable.")]
                             200
                      else Redirect "chat"), st2)
            end
      end.
Proof.
  intros Hm. unfold chat_view. rewrite Hm. cbv zeta.
  destruct (PyStr.strip _ =? "")%string; cbn [negb]; [reflexivity |].
  unfold bind at 1.
  destruct (Message_objects_create env "user" _ st) as [[e | m] st1];
    [reflexivity |].
  destruct (Py.truthy_opt (OPENAI_API_KEY env)); cbn [negb].
  - unfold bind at 1.
    destruct (get_ai_response_external_only env _ st1)
      as [[e | [response | error error_type]] st2]; [reflexivity | |];
      unfold bind, ret, no_message;
      match goal with
      | |- context [Message_objects_create env ?r ?c ?s] =>
          destruct (Message_objects_create env r c s) as [[e | m'] st3]
      end; try reflexivity; destruct (is_ajax request) eqn:Ha;
      try reflexivity; unfold ret; reflexivity.
  - unfold bind, ret.
    match goal with
    | |- context [Message_objects_create env ?r ?c ?s] =>
        destruct (Message_objects_create env r c s) as [[e | m'] st3]
    end; [reflexivity |].
    destruct (is_ajax request); reflexivity.
Qed.

Lemma config_msg_saved :
  message_pre_save
    (Py.JStr "OpenAI API key is not configured. Please set the OPENAI_API_KEY environment variable.")
  = inr "OpenAI API key is not configured. Please set the OPENAI_API_KEY environment variable.".
Proof. vm_compute. reflexivity. Qed.

(** X13. What [chat_view] answers to a [POST] depends on the
    [X-Requested-With] header alone: a redirect to [chat] without it, a
    JSON body with status 200 with it, errors included. The JSON body has
    one of four shapes, and the only [error_type] it can carry is
    [all_apis_failed]. *)
Theorem chat_view_answers env request st resp st' :
  (method request =? "POST")%string = true ->
  chat_view env request st = (inr resp, st') ->
  (is_ajax request = false -> resp = Redirect "chat")
  /\ (is_ajax request = true ->
      exists body,
        resp = JsonResponse body 200
        /\ (body = [("error", Py.JStr "No message provided")]
            \/ body
               = [("error",
                   Py.JStr "OpenAI API key is not configured. Please set the OPENAI_API_KEY environment variable.")]
            \/ (exists reply message_id,
                   body = [("response", Py.JStr reply);
                           ("message_id", Py.JInt message_id)])
            \/ body = [("error", Py.JStr all_failed_msg);
                       ("error_type", Py.JStr "all_apis_failed")])).
Proof.
  intros Hm Hrun. rewrite (chat_view_post _ _ _ Hm) in Hrun. cbv zeta in Hrun.
  destruct (PyStr.strip _ =? "")%string.
  { unfold no_message, ret in Hrun.
    destruct (is_ajax request); injection Hrun as <- _;
      (split; [intros; congruence || reflexivity |]); intros; try discriminate.
    eexists. split; [reflexivity | now left]. }
  destruct (Message_objects_create env "user" _ st) as [[e | m] st1];
    [discriminate |].
  destruct (Py.truthy_opt (OPENAI_API_KEY env)).
  2:{ destruct (Message_objects_create env "assistant" _ st1)
        as [[e | m'] st2]; [discriminate |].
      destruct (is_ajax request); injection Hrun as <- _;
        (split; [intros; congruence || reflexivity |]); intros;
        try discriminate.
      eexists. split; [reflexivity | right; now left]. }
  destruct (dispatcher_run env
              (PyStr.strip match Py.assoc "message" (POST request) with
                           | Some v => v
                           | None => ""
                           end) st1)
    as (o & reqs & sigs & rets & Hd_run & Hd).
  rewrite Hd_run in Hrun.
  destruct (dispatch_outcome _ _ _ _ _ _ Hd) as [Hs | ->].
  - destruct o as [response | error error_type]; [| discriminate Hs].
    rewrite create_run in Hrun.
    destruct (message_pre_save response) as [e | c] eqn:Hsave;
      [discriminate |].
    destruct (message_pre_save_is_str _ _ Hsave) as (reply & ->).
    destruct (db_fault env); [discriminate |].
    destruct (is_ajax request); injection Hrun as <- _;
      (split; [intros; congruence || reflexivity |]); intros;
      try discriminate.
    eexists. split; [reflexivity | right; right; left; eauto].
  - unfold all_failed in Hrun.
    rewrite create_run, all_failed_msg_saved in Hrun.
    destruct (db_fault env); [discriminate |].
    destruct (is_ajax request); injection Hrun as <- _;
      (split; [intros; congruence || reflexivity |]); intros;
      try discriminate.
    eexists. split; [reflexivity | right; right; now right].
Qed.

Lemma chat_view_answers_witness :
  exists body,
    value_of (chat_view Examples.down_world (MoreExamples.ajax_post "hello")
                Examples.one_turn)
    = inr (JsonResponse body 200).
Proof.
  destruct (chat_view Examples.down_world (MoreExamples.ajax_post "hello")
              Examples.one_turn) as [[e | resp] st'] eqn:Hrun;
    [vm_compute in Hrun; discriminate Hrun |].
  destruct (chat_view_answers Examples.down_world
              (MoreExamples.ajax_post "hello") Examples.one_turn resp st'
              eq_refl Hrun) as (_ & H).
  destruct (H eq_refl) as (body & -> & _). now exists body.
Defined.

(** X14. Without a key, a [POST] with a message that is not blank makes
    [chat_view] save two rows, the user turn and an assistant turn holding
    the configuration message; it sends no request and runs no stage. The
    entry point [chat_api], without a key, leaves the state as it was
    whatever the request data: it saves nothing. *)
Theorem chat_view_without_key env request st :
  (method request =? "POST")%string = true ->
  Py.truthy_opt (OPENAI_API_KEY env) = false ->
  db_fault env = None ->
  let user_input :=
    PyStr.strip match Py.assoc "message" (POST request) with
                | Some v => v
                | None => ""
                end in
  user_input <> "" ->
  exists resp saved,
    value_of (chat_view env request st) = inr resp
    /\ message_pre_save (Py.JStr user_input) = inr saved
    /\ table (state_of (chat_view env request st))
       = (table st
          ++ [{| Models.id := next_id st; Models.role := "user";
                 Models.content := saved |};
              {| Models.id := next_id st + 1; Models.role := "assistant";
                 Models.content :=
                   "OpenAI API key is not configured. Please set the OPENAI_API_KEY environment variable." |}])%list
    /\ requests_during (chat_view env request) st = []
    /\ returns_during (chat_view env request) st = []
    /\ (forall request_data,
           state_of (chat_api env request_data st) = st).
Proof.
  intros Hm Hkey Hdb user_input Hne.
  destruct (strip_accepted _ Hne) as (saved & Hsaved).
  fold user_input in Hsaved.
  unfold requests_during, returns_during, value_of, state_of.
  rewrite (chat_view_post _ _ _ Hm). cbv zeta. fold user_input.
  destruct (String.eqb_spec user_input ""); [contradiction |].
  rewrite create_run, Hsaved, Hdb, Hkey, create_run, config_msg_saved, Hdb.
  eexists _, saved. split; [reflexivity |]. split; [reflexivity |].
  cbn. rewrite <- app_assoc.
  split; [reflexivity |]. split; [apply since_same |].
  split; [apply since_same |].
  intros request_data. unfold state_of, chat_api. rewrite Hkey.
  now destruct (validated_message env request_data).
Qed.

Lemma chat_view_without_key_witness :
  requests_during
    (chat_view Examples.no_key_world (MoreExamples.ajax_post "hello"))
    Examples.one_turn = []
  /\ length (table (state_of (chat_view Examples.no_key_world
                                (MoreExamples.ajax_post "hello")
                                Examples.one_turn))) = 3%nat.
Proof.
  destruct (chat_view_without_key Examples.no_key_world
              (MoreExamples.ajax_post "hello") Examples.one_turn
              eq_refl eq_refl eq_refl)
    as (resp & saved & _ & _ & Ht & Hr & _).
  - vm_compute. discriminate.
  - split; [exact Hr |]. rewrite Ht, length_app. reflexivity.
Defined.

(** X15. A [POST] whose message is missing or consists of whitespace only
    changes nothing: no row is saved, no request is sent, and the answer
    is [No message provided] (or the redirect). *)
Theorem chat_view_blank_message env request st :
  (method request =? "POST")%string = true ->
  Py.all_space match Py.assoc "message" (POST request) with
               | Some v => v
               | None => ""
               end = true ->
  chat_view env request st
  = (inr (if is_ajax request
          then JsonResponse [("error", Py.JStr "No message provided")] 200
          else Redirect "chat"),
     st).
Proof.
  intros Hm Hblank. rewrite (chat_view_post _ _ _ Hm). cbv zeta.
  rewrite (strip_blank _ Hblank). cbn [String.eqb].
  unfold no_message, ret. now destruct (is_ajax request).
Qed.

Lemma chat_view_blank_message_witness :
  chat_view Examples.tort_world (MoreExamples.ajax_post "   ") Examples.one_turn
  = (inr (JsonResponse [("error", Py.JStr "No message provided")] 200),
     Examples.one_turn).
Proof.
  apply (chat_view_blank_message Examples.tort_world
           (MoreExamples.ajax_post "   ") Examples.one_turn); reflexivity.
Defined.

(* ===================================================================== *)
(** ** Rate limiting *)
(* ===================================================================== *)

Lemma cache_get_set_same c key value timeout default :
  cache_get (cache_set c key value timeout) key default = value.
Proof. unfold cache_get, cache_set. now rewrite String.eqb_refl. Qed.

Lemma cache_get_set_other c key value timeout k default :
  k <> key ->
  cache_get (cache_set c key value timeout) k default = cache_get c k default.
Proof.
  intros Hne. unfold cache_get, cache_set.
  destruct (String.eqb_spec k key); [contradiction | reflexivity].
Qed.

Lemma append_inj_l (p a b : string) : p ++ a = p ++ b -> a = b.
Proof.
  induction p as [| ch p IH]; simpl; [auto |].
  intros H. injection H as H. auto.
Qed.

Lemma process_request_api request c :
  prefix "/api/" (path request) = true ->
  Middleware.RateLimitingMiddleware.process_request request c
  = if 100 <=? cache_get c (rate_key request) 0
    then (Some (JsonResponse
                  [("error", Py.JStr "Rate limit exceeded. Please try again later.");
                   ("error_type", Py.JStr "rate_limit")] 429), c)
    else (None,
          cache_set c (rate_key request)
            (cache_get c (rate_key request) 0 + 1) 3600).
Proof.
  intros Hp. unfold Middleware.RateLimitingMiddleware.process_request.
  now rewrite Hp.
Qed.

(** X16. The rate limiter answers a request itself only when the client's
    counter has reached 100, and then leaves the cache as it was; no
    counter that is at most 100 ever gets above 100. *)
Theorem rate_limit_counter_bounded request c :
  (answered (fst (Middleware.RateLimitingMiddleware.process_request request c))
   = true ->
   snd (Middleware.RateLimitingMiddleware.process_request request c) = c
   /\ 100 <= cache_get c (rate_key request) 0
   /\ fst (Middleware.RateLimitingMiddleware.process_request request c)
      = Some (JsonResponse
                [("error", Py.JStr "Rate limit exceeded. Please try again later.");
                 ("error_type", Py.JStr "rate_limit")] 429))
  /\ (forall k,
         cache_get c k 0 <= 100 ->
         cache_get
           (snd (Middleware.RateLimitingMiddleware.process_request request c))
           k 0 <= 100).
Proof.
  destruct (prefix "/api/" (path request)) eqn:Hp.
  2:{ unfold Middleware.RateLimitingMiddleware.process_request. rewrite Hp.
      split; [discriminate | auto]. }
  rewrite (process_request_api _ _ Hp).
  destruct (Z.leb_spec 100 (cache_get c (rate_key request) 0)) as [Hge | Hlt];
    cbn [fst snd answered].
  - split; [intros _; repeat split; assumption | auto].
  - split; [discriminate |]. intros k Hk.
    destruct (String.eqb_spec k (rate_key request)) as [-> | Hne].
    + rewrite cache_get_set_same. lia.
    + now rewrite cache_get_set_other.
Qed.

(** X17. When one client sends [n] requests to a path under [/api/] in a
    row, the request number [i] (counted from 0) is answered with 429
    exactly when the counter read before the first plus [i] is at least
    100: from an empty cache the first 100 pass and every later one is
    refused. *)
Theorem rate_limit_sequence request n : forall c,
  prefix "/api/" (path request) = true ->
  map answered
    (fst (Middleware.RateLimitingMiddleware.serve (repeat request n) c))
  = map (fun i => 100 <=? cache_get c (rate_key request) 0 + Z.of_nat i)
      (seq 0 n).
Proof.
  induction n as [| n IH]; intros c Hp; [reflexivity |].
  cbn [repeat Middleware.RateLimitingMiddleware.serve].
  rewrite (process_request_api _ _ Hp).
  destruct (Z.leb_spec 100 (cache_get c (rate_key request) 0)) as [Hge | Hlt].
  - specialize (IH c Hp).
    destruct (Middleware.RateLimitingMiddleware.serve (repeat request n) c)
      as [answers c2].
    cbn [fst map answered seq] in *. rewrite IH, <- seq_shift, map_map.
    f_equal; [symmetry; apply Z.leb_le; lia |].
    apply map_ext. intros i.
    transitivity true; [apply Z.leb_le; lia | symmetry; apply Z.leb_le; lia].
  - specialize (IH (cache_set c (rate_key request)
                      (cache_get c (rate_key request) 0 + 1) 3600) Hp).
    destruct (Middleware.RateLimitingMiddleware.serve (repeat request n) _)
      as [answers c2].
    cbn [fst map answered seq] in *.
    rewrite IH, cache_get_set_same, <- seq_shift, map_map.
    f_equal; [symmetry; apply Z.leb_gt; lia |].
    apply map_ext. intros i. f_equal. lia.
Qed.

Lemma rate_limit_sequence_witness :
  map answered
    (fst (Middleware.RateLimitingMiddleware.serve
            (repeat (MoreExamples.api_call "1.2.3.4, 5.6.7.8") 102)
            MoreExamples.empty_cache))
  = (repeat false 100 ++ [true; true])%list.
Proof.
  rewrite (rate_limit_sequence (MoreExamples.api_call "1.2.3.4, 5.6.7.8") 102
             MoreExamples.empty_cache eq_refl).
  vm_compute. reflexivity.
Defined.

(** X18. Requests counted under different client addresses do not touch
    each other's counter. *)
Theorem rate_limit_isolation request other c :
  Py.str_opt (Middleware.get_client_ip request)
  <> Py.str_opt (Middleware.get_client_ip other) ->
  cache_get (snd (Middleware.RateLimitingMiddleware.process_request request c))
    (rate_key other) 0
  = cache_get c (rate_key other) 0.
Proof.
  intros Hne.
  assert (Hkey : rate_key other <> rate_key request).
  { unfold rate_key. intros H. apply append_inj_l in H. congruence. }
  unfold Middleware.RateLimitingMiddleware.process_request.
  destruct (prefix "/api/" (path request)); [| reflexivity].
  fold (rate_key request).
  destruct (100 <=? cache_get c (rate_key request) 0); [reflexivity |].
  cbn [snd]. now apply cache_get_set_other.
Qed.

Lemma rate_limit_isolation_witness :
  cache_get
    (snd (Middleware.RateLimitingMiddleware.process_request
            (MoreExamples.api_call "1.2.3.4") MoreExamples.empty_cache))
    (rate_key (MoreExamples.api_call "5.6.7.8")) 0
  = 0.
Proof.
  rewrite (rate_limit_isolation (MoreExamples.api_call "1.2.3.4")
             (MoreExamples.api_call "5.6.7.8") MoreExamples.empty_cache).
  - reflexivity.
  - vm_compute. discriminate.
Defined.

Lemma before_comma_spec s :
  comma_free (PyStr.before_comma s)
  /\ (s = PyStr.before_comma s
      \/ exists rest, s = PyStr.before_comma s ++ "," ++ rest).
Proof.
  induction s as [| ch s (IHfree & IHsplit)]; [split; [exact I | now left] |].
  cbn [PyStr.before_comma].
  destruct (Ascii.eqb_spec ch ","%char) as [-> | Hne].
  - split; [exact I |]. right. now exists s.
  - split; [now split |].
    destruct IHsplit as [H | (rest & H)].
    + left. f_equal. exact H.
    + right. exists rest. simpl in H |- *. f_equal. exact H.
Qed.

(** X19. When the [X-Forwarded-For] header is there and not empty, the
    client address is the text of the header before its first comma,
    whatever [REMOTE_ADDR] says: it holds no comma, and the header is that
    text, alone or followed by a comma and the rest. Without the header
    (or with an empty one) the address is [REMOTE_ADDR]. *)
Theorem client_ip_from_header request :
  (forall forwarded,
      Py.assoc "HTTP_X_FORWARDED_FOR" (META request) = Some forwarded ->
      forwarded <> "" ->
      exists ip,
        Middleware.get_client_ip request = Some ip
        /\ comma_free ip
        /\ (forwarded = ip \/ exists rest, forwarded = ip ++ "," ++ rest))
  /\ (Py.assoc "HTTP_X_FORWARDED_FOR" (META request) = None
      \/ Py.assoc "HTTP_X_FORWARDED_FOR" (META request) = Some "" ->
      Middleware.get_client_ip request
      = Py.assoc "REMOTE_ADDR" (META request)).
Proof.
  unfold Middleware.get_client_ip. split.
  - intros forwarded -> Hne. cbn [Py.truthy_opt Py.str_opt].
    destruct (String.eqb_spec forwarded ""); [contradiction |]. cbn [negb].
    exists (PyStr.before_comma forwarded). split; [reflexivity |].
    apply before_comma_spec.
  - intros [-> | ->]; reflexivity.
Qed.

(* ===================================================================== *)
(** ** The counters kept by the signal receivers *)
(* ===================================================================== *)

Lemma attempt_signal_kinds c env st o reqs sigs :
  attempt c env st o reqs sigs ->
  sigs = []
  \/ exists kind msg,
       sigs = [notification c kind msg]
       /\ (kind = "auth_error" \/ kind = "rate_limit" \/ kind = "api_error").
Proof. destruct 1; eauto 8. Qed.

Lemma deliver_one_other n c key :
  key <> "error_count_" ++ Signals.error_type n ->
  cache_get (Handlers.handle_error_occurred n c) key 0 = cache_get c key 0.
Proof. intros H. unfold Handlers.handle_error_occurred. now apply cache_get_set_other. Qed.

(** X20. Run on the signals of one dispatch, the receiver
    [handle_error_occurred] adds one to the counter of [all_apis_failed]
    exactly when the dispatch failed, and never changes the counters of
    [timeout] and [network_error]: those two kinds are returned by the
    stages but never signalled. *)
Theorem error_counters_after_dispatch env user_input st c :
  exists o,
    value_of (get_ai_response_external_only env user_input st) = inr o
    /\ cache_get
         (Handlers.deliver
            (signals_during (get_ai_response_external_only env user_input) st) c)
         "error_count_all_apis_failed" 0
       = cache_get c "error_count_all_apis_failed" 0
         + (if get_success o then 0 else 1)
    /\ cache_get
         (Handlers.deliver
            (signals_during (get_ai_response_external_only env user_input) st) c)
         "error_count_timeout" 0
       = cache_get c "error_count_timeout" 0
    /\ cache_get
         (Handlers.deliver
            (signals_during (get_ai_response_external_only env user_input) st) c)
         "error_count_network_error" 0
       = cache_get c "error_count_network_error" 0.
Proof.
  destruct (dispatcher_run env user_input st)
    as (o & reqs & sigs & rets & Hrun & Hd).
  destruct (observe_extend _ _ _ _ _ _ Hrun) as (Hv & _ & Hs & _).
  rewrite Hv, Hs. clear Hrun Hv Hs. exists o. split; [reflexivity |].
  assert (Hone : forall o1 reqs1 sigs1 key,
             attempt (first_consts env) env st o1 reqs1 sigs1 ->
             key = "error_count_all_apis_failed"
             \/ key = "error_count_timeout"
             \/ key = "error_count_network_error" ->
             cache_get (Handlers.deliver sigs1 c) key 0 = cache_get c key 0).
  { intros o1 reqs1 sigs1 key Hatt Hkey.
    destruct (attempt_signal_kinds _ _ _ _ _ _ Hatt)
      as [-> | (kind & msg & -> & Hkind)]; [reflexivity |].
    cbn [Handlers.deliver fold_left]. apply deliver_one_other.
    cbn [notification Signals.error_type].
    destruct Hkey as [-> | [-> | ->]]; destruct Hkind as [-> | [-> | ->]];
      discriminate. }
  assert (Hlast : forall sigs1,
             Handlers.deliver (sigs1 ++ [all_failed_notification]) c
             = Handlers.handle_error_occurred all_failed_notification
                 (Handlers.deliver sigs1 c)).
  { intros sigs1. unfold Handlers.deliver. now rewrite fold_left_app. }
  destruct Hd as [Hk | o reqs sigs Hk Hatt Hs
                 | o1 reqs1 sigs1 o2 reqs2 Hk Hatt Hs1 Ha Hs2
                 | o1 reqs1 sigs1 o2 reqs2 Hk Hatt Hs1 Ha Hs2].
  - cbn [Handlers.deliver fold_left get_success all_failed].
    split; [apply cache_get_set_same |].
    split; apply deliver_one_other; discriminate.
  - rewrite Hs, !(Hone _ _ _ _ Hatt); auto. repeat split. lia.
  - rewrite Hs2, !(Hone _ _ _ _ Hatt); auto. repeat split. lia.
  - rewrite (Hlast sigs1).
    cbn [get_success all_failed].
    split; [| split; rewrite deliver_one_other by discriminate;
                     apply (Hone _ _ _ _ Hatt); auto].
    unfold Handlers.handle_error_occurred.
    cbn [all_failed_notification Signals.error_type].
    rewrite cache_get_set_same.
    change ("error_count_" ++ "all_apis_failed")
      with "error_count_all_apis_failed".
    rewrite (Hone _ _ _ _ Hatt); auto.
Qed.

Lemma role_key_not_total role :
  "message_count_" ++ role <> "total_message_count".
Proof. discriminate. Qed.

(** X21. The counters of [message_post_save] and [message_post_delete]
    cancel: after a row is created and then deleted, every counter reads
    what it read before, provided the two counters concerned were not
    negative. *)
Theorem message_counters_round_trip env instance c key :
  0 <= cache_get c ("message_count_" ++ Models.role instance) 0 ->
  0 <= cache_get c "total_message_count" 0 ->
  cache_get
    (Handlers.message_post_delete instance
       (snd (Handlers.message_post_save env instance true c)))
    key 0
  = cache_get c key 0.
Proof.
  intros Hrole Htotal.
  pose proof (role_key_not_total (Models.role instance)) as Hne.
  unfold Handlers.message_post_save, Handlers.message_post_delete. cbn [snd].
  set (kr := "message_count_" ++ Models.role instance) in *.
  repeat (rewrite ?cache_get_set_same;
          rewrite ?(cache_get_set_other _ _ _ _ kr) by congruence;
          rewrite ?(cache_get_set_other _ _ _ _ "total_message_count")
            by congruence).
  destruct (Z.ltb_spec 0 (cache_get c kr 0 + 1)); [| lia].
  repeat (rewrite ?cache_get_set_same;
          rewrite ?(cache_get_set_other _ _ _ _ "total_message_count")
            by congruence).
  destruct (Z.ltb_spec 0 (cache_get c "total_message_count" 0 + 1)); [| lia].
  destruct (String.eqb_spec key "total_message_count") as [-> | Hkt].
  { rewrite cache_get_set_same. lia. }
  rewrite cache_get_set_other by assumption.
  destruct (String.eqb_spec key kr) as [-> | Hkr].
  { rewrite cache_get_set_same. lia. }
  now rewrite !cache_get_set_other by assumption.
Qed.

Lemma message_counters_round_trip_witness :
  cache_get
    (Handlers.message_post_delete
       {| Models.id := 1; Models.role := "user"; Models.content := "hello" |}
       (snd (Handlers.message_post_save Examples.tort_world
               {| Models.id := 1; Models.role := "user";
                  Models.content := "hello" |} true
               MoreExamples.empty_cache)))
    "message_count_user" 0
  = 0.
Proof.
  rewrite (message_counters_round_trip Examples.tort_world
             {| Models.id := 1; Models.role := "user"; Models.content := "hello" |}
             MoreExamples.empty_cache "message_count_user");
    [reflexivity | vm_compute; discriminate | vm_compute; discriminate].
Defined.

(** X22. Neither receiver ever makes a counter negative: when every
    counter of the cache reads at least 0, it still does after
    [message_post_save] and after [message_post_delete], also when the
    entry of the deleted row's role has expired. *)
Theorem message_counters_not_negative env instance created c :
  (forall key, 0 <= cache_get c key 0) ->
  (forall key,
      0 <= cache_get (snd (Handlers.message_post_save env instance created c))
             key 0)
  /\ (forall key,
         0 <= cache_get (Handlers.message_post_delete instance c) key 0).
Proof.
  intros Hpos.
  assert (Hset : forall c' k v,
             (forall key, 0 <= cache_get c' key 0) -> 0 <= v ->
             forall key, 0 <= cache_get (cache_set c' k v 3600) key 0).
  { intros c' k v Hc Hv key.
    destruct (String.eqb_spec key k) as [-> | Hne].
    - now rewrite cache_get_set_same.
    - rewrite cache_get_set_other by assumption. apply Hc. }
  split.
  - unfold Handlers.message_post_save.
    destruct created; cbn [snd]; [| exact Hpos].
    apply Hset; [apply Hset; [exact Hpos |] |].
    + specialize (Hpos ("message_count_" ++ Models.role instance)). lia.
    + match goal with
      | |- 0 <= cache_get ?c' ?k 0 + 1 =>
          assert (0 <= cache_get c' k 0); [| lia]
      end.
      apply Hset; [exact Hpos |].
      specialize (Hpos ("message_count_" ++ Models.role instance)). lia.
  - unfold Handlers.message_post_delete.
    set (c1 := if 0 <? _ then _ else c).
    assert (Hc1 : forall key, 0 <= cache_get c1 key 0).
    { unfold c1.
      destruct (Z.ltb_spec 0
                  (cache_get c ("message_count_" ++ Models.role instance) 0));
        [apply Hset; [exact Hpos | lia] | exact Hpos]. }
    destruct (Z.ltb_spec 0 (cache_get c1 "total_message_count" 0));
      [apply Hset; [exact Hc1 | lia] | exact Hc1].
Qed.

Lemma message_counters_not_negative_witness :
  0 <= cache_get
         (Handlers.message_post_delete
            {| Models.id := 1; Models.role := "user"; Models.content := "hello" |}
            MoreExamples.empty_cache)
         "message_count_user" 0.
Proof.
  apply (message_counters_not_negative Examples.tort_world
           {| Models.id := 1; Models.role := "user"; Models.content := "hello" |}
           true MoreExamples.empty_cache).
  intros key. vm_compute. discriminate.
Defined.

(* ===================================================================== *)
(** ** The computed columns of the admin list *)
(* ===================================================================== *)

Lemma append_char_not_empty word ch : word ++ String ch "" <> "".
Proof. destruct word; discriminate. Qed.

Lemma split_from_empty s : forall word,
  PyStr.split_from word s = [] <-> word = "" /\ Py.all_space s = true.
Proof.
  induction s as [| ch s IH]; intros word; cbn [PyStr.split_from Py.all_space].
  - destruct (String.eqb_spec word ""); split; try tauto; try discriminate.
  - destruct (Py.isspace ch); cbn [andb].
    + destruct (String.eqb_spec word "") as [-> | Hne].
      * rewrite IH. tauto.
      * split; [discriminate | intros (H & _); contradiction].
    + rewrite IH. split; [| intros (_ & H); discriminate].
      intros (H & _). now apply append_char_not_empty in H.
Qed.

(** X23. [word_count] is 0 exactly for blank content; so every row whose
    content went through [message_pre_save] counts at least one word. *)
Theorem word_count_of_saved obj :
  (MessageAdmin.word_count obj = 0 <-> Py.all_space (Models.content obj) = true)
  /\ (forall content,
         message_pre_save content = inr (Models.content obj) ->
         1 <= MessageAdmin.word_count obj).
Proof.
  assert (Hzero : MessageAdmin.word_count obj = 0
                  <-> Py.all_space (Models.content obj) = true).
  { unfold MessageAdmin.word_count, PyStr.split.
    pose proof (split_from_empty (Models.content obj) "") as H.
    destruct (PyStr.split_from "" (Models.content obj)) as [| w ws].
    - split; [intros _; now apply H | reflexivity].
    - split; [intros Hz; cbn [length] in Hz; lia |].
      intros Hb. destruct H as (_ & H). discriminate (H (conj eq_refl Hb)). }
  split; [exact Hzero |].
  intros content Hsave.
  destruct (message_pre_save_ok _ _ Hsave) as (Hblank & _).
  assert (MessageAdmin.word_count obj <> 0).
  { intros Hz. apply Hzero in Hz. congruence. }
  unfold MessageAdmin.word_count in *. lia.
Qed.

Lemma datetime_sub_fields now created_at :
  MessageAdmin.days (MessageAdmin.datetime_sub now created_at)
  = (now - created_at) / 1000000 / 86400
  /\ MessageAdmin.seconds (MessageAdmin.datetime_sub now created_at)
     = ((now - created_at) / 1000000) mod 86400.
Proof.
  unfold MessageAdmin.datetime_sub. cbn [MessageAdmin.days MessageAdmin.seconds].
  generalize (now - created_at). intros d.
  split; Z.div_mod_to_equations; lia.
Qed.

(** X24. For a row that is not stamped in the future, with [age] its age
    in whole seconds: from one day on [time_ago] shows whole days and
    nothing finer; above an hour and below a day it shows whole hours,
    between 1 and 23; above a minute and up to an hour inclusive it shows
    whole minutes, between 1 and 60 (an age of exactly one hour reads
    [60 minutes ago]); up to 60 seconds it shows [Just now]. *)
Theorem time_ago_ranges now created_at :
  0 <= now - created_at ->
  let age := (now - created_at) / 1000000 in
  (86400 <= age ->
   MessageAdmin.time_ago now created_at
   = Py.str_int (age / 86400) ++ " day"
     ++ (if negb (age / 86400 =? 1) then "s" else "") ++ " ago"
   /\ 1 <= age / 86400)
  /\ (3600 < age < 86400 ->
      MessageAdmin.time_ago now created_at
      = Py.str_int (age / 3600) ++ " hour"
        ++ (if negb (age / 3600 =? 1) then "s" else "") ++ " ago"
      /\ 1 <= age / 3600 <= 23)
  /\ (60 < age <= 3600 ->
      MessageAdmin.time_ago now created_at
      = Py.str_int (age / 60) ++ " minute"
        ++ (if negb (age / 60 =? 1) then "s" else "") ++ " ago"
      /\ 1 <= age / 60 <= 60)
  /\ (age <= 60 -> MessageAdmin.time_ago now created_at = "Just now").
Proof.
  intros Hpos age.
  destruct (datetime_sub_fields now created_at) as (Hdays & Hsecs).
  fold age in Hdays, Hsecs.
  assert (Hage : 0 <= age) by (unfold age; Z.div_mod_to_equations; lia).
  unfold MessageAdmin.time_ago. cbv zeta. rewrite Hdays, Hsecs.
  repeat split.
  - destruct (Z.ltb_spec 0 (age / 86400)); [reflexivity |].
    Z.div_mod_to_equations; lia.
  - Z.div_mod_to_equations; lia.
  - destruct H as (Hlo & Hhi).
    assert (Hd : age / 86400 = 0) by (Z.div_mod_to_equations; lia).
    assert (Hm : age mod 86400 = age) by (Z.div_mod_to_equations; lia).
    rewrite Hd, Hm. cbn [Z.ltb Z.compare].
    destruct (Z.ltb_spec 3600 age); [reflexivity | lia].
  - Z.div_mod_to_equations; lia.
  - Z.div_mod_to_equations; lia.
  - destruct H as (Hlo & Hhi).
    assert (Hd : age / 86400 = 0) by (Z.div_mod_to_equations; lia).
    assert (Hm : age mod 86400 = age) by (Z.div_mod_to_equations; lia).
    rewrite Hd, Hm. cbn [Z.ltb Z.compare].
    destruct (Z.ltb_spec 3600 age); [lia |].
    destruct (Z.ltb_spec 60 age); [reflexivity | lia].
  - Z.div_mod_to_equations; lia.
  - Z.div_mod_to_equations; lia.
  - intros Hle.
    assert (Hd : age / 86400 = 0) by (Z.div_mod_to_equations; lia).
    assert (Hm : age mod 86400 = age) by (Z.div_mod_to_equations; lia).
    rewrite Hd, Hm. cbn [Z.ltb Z.compare].
    destruct (Z.ltb_spec 3600 age); [lia |].
    destruct (Z.ltb_spec 60 age); [lia | reflexivity].
Qed.

Lemma time_ago_ranges_witness :
  MessageAdmin.time_ago 3600000000 0 = "60 minutes ago".
Proof.
  destruct (time_ago_ranges 3600000000 0) as (_ & _ & (H & _) & _).
  - discriminate.
  - vm_compute. split; [reflexivity | discriminate].
  - rewrite H. vm_compute. reflexivity.
Defined.

(** X25. A row stamped in the future, by up to one day, is shown as if it
    were one day older than it is: [time_ago] reads the same as one day
    later, and never [day]. One second ahead of the clock reads
    [23 hours ago]. *)
Theorem time_ago_future now created_at :
  now < created_at ->
  created_at - now <= 86400000000 ->
  MessageAdmin.time_ago now created_at
  = MessageAdmin.time_ago (now + 86400000000) created_at.
Proof.
  intros Hfuture Hday.
  destruct (datetime_sub_fields now created_at) as (Hdays & Hsecs).
  destruct (datetime_sub_fields (now + 86400000000) created_at)
    as (Hdays' & Hsecs').
  unfold MessageAdmin.time_ago. cbv zeta.
  rewrite Hdays, Hsecs, Hdays', Hsecs'.
  assert (H1 : (now - created_at) / 1000000 / 86400 = -1)
    by (Z.div_mod_to_equations; lia).
  assert (H2 : (now + 86400000000 - created_at) / 1000000 / 86400 = 0)
    by (Z.div_mod_to_equations; lia).
  assert (H3 : ((now + 86400000000 - created_at) / 1000000) mod 86400
               = ((now - created_at) / 1000000) mod 86400)
    by (Z.div_mod_to_equations; lia).
  rewrite H1, H2, H3. reflexivity.
Qed.

Lemma time_ago_future_witness :
  MessageAdmin.time_ago 0 1000000 = "23 hours ago".
Proof.
  rewrite (time_ago_future 0 1000000); [vm_compute; reflexivity | | ];
    vm_compute; [reflexivity | discriminate].
Defined.

(* ===================================================================== *)
(** ** The rows stay well-formed *)
(* ===================================================================== *)

Lemma keeps_rows_ret {A : Type} (a : A) : keeps_rows (ret a).
Proof. intros st H. exact H. Qed.

Lemma keeps_rows_bind {A B : Type} (m : M A) (k : A -> M B) :
  keeps_rows m -> (forall a, keeps_rows (k a)) -> keeps_rows (bind m k).
Proof.
  intros Hm Hk st H. unfold bind. specialize (Hm st H).
  destruct (m st) as [[e | a] st1]; [exact Hm |].
  exact (Hk a st1 Hm).
Qed.

Lemma keeps_rows_create env role content :
  keeps_rows (Message_objects_create env role content).
Proof.
  intros st H. rewrite create_run.
  destruct (message_pre_save content) as [e | c] eqn:Hsave; [exact H |].
  destruct (db_fault env); [exact H |].
  cbn. apply Forall_app. split; [exact H |].
  constructor; [| constructor].
  exact (message_pre_save_ok _ _ Hsave).
Qed.

Lemma keeps_rows_dispatcher env user_input :
  keeps_rows (get_ai_response_external_only env user_input).
Proof.
  intros st H.
  destruct (dispatcher_run env user_input st)
    as (o & reqs & sigs & rets & Hrun & _).
  rewrite Hrun. exact H.
Qed.

Lemma keeps_rows_all env : keeps_rows (Message_objects_all env).
Proof.
  intros st H. unfold Message_objects_all. now destruct (db_fault env).
Qed.

(** X26. Both entry points keep the table well-formed: when every row has
    content that is not blank and at most 5000 characters long before a
    [chat_api] or [chat_view] call, every row has after it, whether the
    call answers or raises. *)
Theorem table_rows_stay_ok env st :
  Forall row_ok (table st) ->
  (forall request_data,
      Forall row_ok (table (state_of (chat_api env request_data st))))
  /\ (forall request,
         Forall row_ok (table (state_of (chat_view env request st)))).
Proof.
  intros Hok. split.
  - intros request_data. revert st Hok.
    change (keeps_rows (chat_api env request_data)).
    unfold chat_api.
    destruct (validated_message env request_data) as [user_input |];
      [| apply keeps_rows_ret].
    destruct (negb (Py.truthy_opt (OPENAI_API_KEY env)));
      [apply keeps_rows_ret |].
    apply keeps_rows_bind; [apply keeps_rows_create | intros _].
    apply keeps_rows_bind; [apply keeps_rows_dispatcher | intros o].
    destruct o as [response | error error_type];
      (apply keeps_rows_bind;
       [apply keeps_rows_create | intros; apply keeps_rows_ret]).
  - intros request. revert st Hok.
    change (keeps_rows (chat_view env request)).
    unfold chat_view, no_message.
    destruct (method request =? "POST")%string.
    2:{ apply keeps_rows_bind; [apply keeps_rows_all | intros; apply keeps_rows_ret]. }
    cbv zeta.
    destruct (negb (PyStr.strip _ =? "")%string).
    2:{ destruct (is_ajax request); apply keeps_rows_ret. }
    apply keeps_rows_bind; [apply keeps_rows_create | intros _].
    destruct (negb (Py.truthy_opt (OPENAI_API_KEY env))).
    { apply keeps_rows_bind; [apply keeps_rows_create | intros _].
      destruct (is_ajax request); apply keeps_rows_ret. }
    apply keeps_rows_bind; [apply keeps_rows_dispatcher | intros o].
    destruct o as [response | error error_type];
      (apply keeps_rows_bind; [apply keeps_rows_create | intros]);
      destruct (is_ajax request); apply keeps_rows_ret.
Qed.

Lemma table_rows_stay_ok_witness :
  Forall row_ok
    (table (state_of (chat_api Examples.tort_world
                        (Examples.message_body "And a contract?")
                        Examples.one_turn))).
Proof.
  apply (table_rows_stay_ok Examples.tort_world Examples.one_turn).
  repeat constructor.
Defined.
